(* ===== verification/_CoqProject ===== *)
-Q . S2P
Prelude.v
Models.v
Json.v
Request.v
Http.v
Store.v
Registry.v
WriteData.v
Invariants.v
Concurrency.v
Realtime.v
