(* ===== verification/Prelude.v ===== *)
(** * A verification development of zc_core's plugin write path and realtime gateway

    The repository is the core of the Zuri Chat backend, written in Go.
    The part under [src/] consists of three files:

    - [src/data/write_data.go]: the plugin write endpoint [WriteData].
      It decodes a [writeDataRequest], checks that the plugin and the
      organization exist, registers the (plugin, organization,
      collection) triple in the [plugin_collections] registry the first
      time it is used, and dispatches on the HTTP method to [handlePost]
      (insert one / insert many), [handlePut] (update one / update many)
      or [handleDelete] (a stub).  The payload shape is checked by the Go
      type assertions of [insertOne], [insertMany], [updateOne] and
      [updateMany]; only [insertOne] reaches the store.
    - [src/models/models.go]: the names of the system collections.
    - [src/realtime/realtime.go]: the Centrifugo connect proxy [Auth]
      (with [CentifugoConnectAuth] and [UserIDFromSession]), [Refresh],
      the debug page [Test] and the event publisher [PublishEvent].

    The helpers the write path calls but which live outside [src/]
    ([recordExists], [pluginHasCollection], [createPluginCollectionRecord],
    [getPrefixedCollectionName], [utils.GetError], [utils.GetSuccess],
    [utils.CreateMongoDbDoc], [utils.GetMongoDbDoc]) are modelled from the
    specification ([spec.md]) and marked so in the manifest.  The
    libraries the code calls ([net/http], [encoding/json], the MongoDB
    driver) are modelled only as far as the code observes them.

    ** Files, in dependency order

    - [Prelude.v] (this file): the state monad [ST] with its [let!] and
      [;;;] notations in [zc_scope], the hint database [zc] and the
      rewrite database [zc_rw], the tactic [st_unfold], and generic
      lemmas on strings ([count_char]), on counting list elements
      ([count_if]) and on [List.find] and list updates.
    - [Models.v]: the constants of [models.go], [system_collections] and
      [is_system_collection].
    - [Json.v]: Go's [interface{}] values as [encoding/json] produces them
      ([value]), documents ([document], a [bson.M]), the type assertions
      [as_slice] and [as_map] (the whole payload validator of the code),
      string decoding, filters ([matches]) and the case folding of
      [encoding/json] ([fold_key], [fold_eqb]: ASCII letters, the Kelvin
      sign and the long s) with which JSON keys are matched to tags.
    - [Request.v]: the request record [writeDataRequest], its decoding
      [decode_writeDataRequest] (one [decode_key] step per key of the
      body, keeping the backing array of the [ObjectIDs] slice in a
      [decode_state]); the Go types of its fields ([gotype],
      [field_type]) and the bodies that decode ([well_typed_body]).
    - [Http.v]: the part of [net/http]'s [ResponseWriter] the handlers
      observe ([response]: first [WriteHeader] wins, [Write] implies
      status 200, headers are frozen once the status is written, a body
      written without a content type gets the sniffed one) and the
      helpers [GetError] and [GetSuccess] of [utils].
    - [Store.v]: the store adapter as an interface: the class [DocStore]
      (documents of a collection in insertion order, per-collection
      availability, insertion) with its laws [DocStoreLaws]; the driver
      calls [GetMongoDbDoc] and [CreateMongoDbDoc] are defined once over
      the interface, so every later theorem holds for every store that
      satisfies the laws; [MemStore] is an instance on stdpp's [gmap]
      that discharges them and makes the examples compute;
      [appends_at_most] bounds what a step appends to a collection.
    - [Registry.v]: the namespace registry: [getPrefixedCollectionName]
      with its inverse [split_prefixed], [recordExists],
      [pluginHasCollection], [createPluginCollectionRecord], the guard
      [ensureCollection] of [WriteData] (lines 42-45), and the
      abstraction [registry_of] of the registry collection to a [gset] of
      triples.
    - [WriteData.v]: the write helpers, the method handlers, the switch
      [route] and [WriteData] itself, as
      state-passing functions over a [world] (the store and the response
      being written).
    - [Invariants.v]: the frame of one request (it touches only the
      registry and its own physical collection) and the stores
      [reachable] by sequences of requests.
    - [Concurrency.v]: concurrent requests: each request's guard as a
      thread of two atomic store calls ([thread_step]), schedules
      ([run_schedule]) and the interleaving relation [gstep].
    - [Realtime.v]: [realtime.go]: the handlers as functions of the
      request, the (read-only) store and the response, with Go panics as
      an [outcome]; the token validator, the session collection name, the
      event struct with its decoder, the event validator and the emitter
      are section variables; [Test] goes
      through a model of [http.ServeFile] over a file system given as a
      function.

    ** What the theorems show

    - Dispatcher ([WriteData.v]): every path of [WriteData] as an
      equation on the world: a missing plugin or organization answers 404
      with the store untouched; a single POST appends its object and
      answers 201 (as sniffed plain text); shape errors answer
      500 after the registration; a PUT with an empty destination answers
      400 after the registration; registry failures are swallowed; the
      stubs report insert/update counts 0 or 1 without writing, DELETE
      answers "hello world", other methods write nothing; each method
      has its own set of possible statuses (a DELETE never 500, another
      method never more than 404 or 422), and the answer is 422 exactly
      when the body is not JSON or not of the request's type.
    - Namespaces: a physical collection is never a system collection,
      and it splits back into its triple (so it is injective) when plugin
      and organization ids contain no underscore.  Both rest on the
      underscore-joined naming of [getPrefixedCollectionName], which is
      modelled from the spec's "stable prefixing scheme".
    - Registry: against the abstract set of triples the guard is an
      insertion (refinement); sequential registration is idempotent and
      leaves one record; over any sequence of requests the registry stays
      sound (its triples name existing plugins and organizations) and
      duplicate-free, and the other system collections are untouched;
      one request only appends, at most one record to the registry and
      one document to one other collection.
    - Concurrency: two interleaved first requests register a triple
      twice; in every interleaving the records are bounded by the
      requests in flight and every finished request leaves its triple
      registered.
    - Realtime: any accepted token connects as the user of the first
      session document (the session filter is lost); a missing or
      rejected token yields several envelopes in one response; session
      lookup failures are accepted as the empty user; a session without
      a string user id panics; an event body that does not decode is
      answered 422 and one that fails validation 400, and neither
      reaches the emitter.

    ** Bounds and fuel

    Nothing in the modelled code loops except over lists, so every
    definition is structurally recursive and needs no fuel.  Go's [int]
    counts are the literals 0 and 1 of the handlers and are modelled as
    [Z]; no arithmetic on them can overflow.  Concurrency is modelled by
    finite schedules, with invariants over [rtc gstep].

    ** Not modelled

    HTTP routing (outside [src/]); JSON text parsing, which is
    [encoding/json]'s own code (a body is an already parsed [value], or
    a parse failure); the MongoDB driver beyond [DocStore] (ObjectIDs,
    the [_id] a store assigns, which no modelled code reads); logging
    ([fmt.Println], which does not reach the response); the conditional
    and range requests of [http.ServeFile]; the text of decoding errors
    (the 422 of [WriteData] carries a fixed message); the token
    validation of the [auth] package, [utils.Event] and its decoder,
    [validate.Struct] and the emitter, which are parameters.
    [recordExists] and the registry calls live outside [src/] and follow
    the spec, except that a connectivity failure in [recordExists] reads
    as "absent": the code consumes its result as a bool (lines 29 and
    35), so the spec's fatal error has no value to travel in, and no
    theorem depends on that case. *)

From stdpp Require Export base list gmap strings relations.
From Stdlib Require Export ZArith Ascii String Lia.

Declare Scope zc_scope.
Delimit Scope zc_scope with zc.
Open Scope string_scope.
(** [++] stays list concatenation; strings are concatenated with [+:+]. *)
Open Scope list_scope.

(** ** A state monad for handlers that thread the store and the response *)

Definition ST (σ A : Type) : Type := σ -> A * σ.

Definition st_ret {σ A} (a : A) : ST σ A := fun s => (a, s).

Definition st_bind {σ A B} (m : ST σ A) (k : A -> ST σ B) : ST σ B :=
  fun s => let '(a, s') := m s in k a s'.

Definition st_get {σ} : ST σ σ := fun s => (s, s).

Definition st_modify {σ} (f : σ -> σ) : ST σ unit := fun s => (tt, f s).

(** A read-only step: observe the state without changing it. *)
Definition st_gets {σ A} (f : σ -> A) : ST σ A := fun s => (f s, s).

Notation "'let!' x ':=' m 'in' k" := (st_bind m (fun x => k))
  (at level 10, x name, m at level 100, k at level 200) : zc_scope.
Notation "m ;;; k" := (st_bind m (fun _ => k))
  (at level 100, right associativity) : zc_scope.

Open Scope zc_scope.

Create HintDb zc.
Create Rewrite HintDb zc_rw.

Lemma st_bind_ret_l {σ A B} (a : A) (k : A -> ST σ B) :
  st_bind (st_ret a) k = k a.
Proof. reflexivity. Qed.

Lemma st_bind_assoc {σ A B C} (m : ST σ A) (k : A -> ST σ B) (h : B -> ST σ C) s :
  st_bind (st_bind m k) h s = st_bind m (fun a => st_bind (k a) h) s.
Proof. unfold st_bind. by destruct (m s). Qed.

#[export] Hint Rewrite @st_bind_ret_l : zc_rw.

(** Unfold the monad plumbing and the pairs it builds. *)
Ltac st_unfold :=
  repeat (unfold st_bind, st_ret, st_get, st_gets, st_modify in *; simpl in *).

(** ** Counting characters of a string *)

Fixpoint count_char (c : ascii) (s : string) : nat :=
  match s with
  | EmptyString => 0
  | String a s' => (if ascii_dec a c then 1 else 0) + count_char c s'
  end.

Lemma count_char_app c s1 s2 :
  count_char c (s1 ++ s2) = count_char c s1 + count_char c s2.
Proof. induction s1 as [|a s1 IH]; simpl; [done|]. rewrite IH. lia. Qed.

#[export] Hint Rewrite count_char_app : zc_rw.

(** ** Counting list elements *)

Definition count_if {A} (f : A -> bool) (l : list A) : nat := List.length (List.filter f l).

Lemma count_if_app {A} (f : A -> bool) l1 l2 :
  count_if f (l1 ++ l2) = count_if f l1 + count_if f l2.
Proof. unfold count_if. by rewrite List.filter_app, length_app. Qed.

Lemma count_if_nil {A} (f : A -> bool) : count_if f [] = 0.
Proof. done. Qed.

Lemma count_if_singleton {A} (f : A -> bool) x :
  count_if f [x] = if f x then 1 else 0.
Proof. unfold count_if. simpl. by destruct (f x). Qed.

#[export] Hint Rewrite @count_if_app @count_if_nil @count_if_singleton : zc_rw.

(** [List.find] succeeds exactly when some element passes the test. *)
Lemma find_is_Some_count_if {A} (f : A -> bool) l :
  is_Some (List.find f l) <-> 0 < count_if f l.
Proof.
  induction l as [|x l IH]; simpl.
  - split; [by intros [? ?] | unfold count_if; simpl; lia].
  - unfold count_if in *. simpl. destruct (f x); simpl; [split; [intros; lia | intros; by eexists] | done].
Qed.

Lemma find_None_count_if {A} (f : A -> bool) l :
  List.find f l = None <-> count_if f l = 0.
Proof.
  pose proof (find_is_Some_count_if f l) as Hf.
  destruct (List.find f l) as [a|]; split; intros H; try done.
  - assert (0 < count_if f l) by (apply Hf; by eexists). lia.
  - destruct (decide (count_if f l = 0)) as [|Hn]; [done|].
    assert (is_Some (@None A)) as [? ?] by (apply Hf; lia). done.
Qed.

Lemma find_is_Some_exists {A} (f : A -> bool) l :
  is_Some (List.find f l) <-> exists x, x ∈ l /\ f x = true.
Proof.
  induction l as [|y l IH]; simpl.
  - split; [by intros [? ?] | intros (? & Hx & _); by apply elem_of_nil in Hx].
  - destruct (f y) eqn:Hy.
    + split; [intros _; exists y; split; [left | done] | by eexists].
    + rewrite IH. split.
      * intros (x & Hx & Hfx). exists x. split; [by right | done].
      * intros (x & Hx & Hfx). apply elem_of_cons in Hx as [->|Hx]; [congruence|]. eauto.
Qed.

(** Replacing the element at [i] changes the count by the difference. *)
Lemma count_if_insert {A} (f : A -> bool) (l : list A) i x y :
  l !! i = Some y ->
  count_if f (<[i := x]> l) + (if f y then 1 else 0) = count_if f l + (if f x then 1 else 0).
Proof.
  revert i. induction l as [|z l IH]; intros [|i] Hi; simplify_eq/=.
  - unfold count_if. simpl. destruct (f x), (f y); simpl; lia.
  - unfold count_if in *. simpl. specialize (IH i Hi). destruct (f z); simpl; lia.
Qed.

Lemma elem_of_list_insert_inv {A} (l : list A) i x y :
  y ∈ <[i := x]> l -> y = x \/ y ∈ l.
Proof.
  intros (j & Hj)%list_elem_of_lookup.
  destruct (decide (i = j)) as [->|Hne].
  - destruct (decide (j < List.length l)).
    + rewrite list_lookup_insert_eq in Hj by done. left. congruence.
    + rewrite list_insert_ge in Hj by (simpl; lia). right. by eapply list_elem_of_lookup_2.
  - rewrite list_lookup_insert_ne in Hj by done. right. by eapply list_elem_of_lookup_2.
Qed.
