(* ===== verification/Models.v ===== *)
(** * The collection names of [src/models/models.go]

    The Go constants become string definitions with the same names;
    [system_collections] lists them and [is_system_collection] decides
    membership, so that the registry can be shown never to hand a plugin
    one of these collections. *)

From S2P Require Import Prelude.

Definition UserCollectionName : string := "users".
Definition WorkspaceUserCollectionName : string := "workspace_users".
Definition PluginCollectionName : string := "plugins".
Definition PluginCollectionsCollectionName : string := "plugin_collections".
Definition MarketplaceCollectionName : string := "marketplaces".
Definition MessagesCollectionName : string := "messages".
Definition InstalledPluginsCollectionName : string := "installed_plugins".

(** The collections owned by the core rather than by a plugin: the
    constants above, and the organization collection that
    [write_data.go] names by a literal ("organization"). *)
Definition system_collections : list string :=
  [UserCollectionName; WorkspaceUserCollectionName; PluginCollectionName;
   PluginCollectionsCollectionName; MarketplaceCollectionName;
   MessagesCollectionName; InstalledPluginsCollectionName; "organization"].

Definition is_system_collection (c : string) : bool :=
  existsb (String.eqb c) system_collections.

(** Every system collection name has at most one underscore. *)
Lemma system_collection_underscores c :
  is_system_collection c = true -> count_char "_" c <= 1.
Proof.
  unfold is_system_collection. intros H. apply existsb_exists in H as (x & Hin & Hx).
  apply String.eqb_eq in Hx. subst x.
  repeat (destruct Hin as [<-|Hin]; [vm_compute; lia|]). done.
Qed.
