(* ===== verification/Json.v ===== *)
(** * Dynamically typed values of Go's [encoding/json]

    [WriteData] decodes the request body with [encoding/json] into a
    struct whose [Payload] field has type [interface{}]; the helpers of
    [write_data.go] then recover the payload's shape with the type
    assertions [data.([]interface{})] and [data.(map[string]interface{})].
    This file models those values ([value]), the documents the store
    holds ([document], a [bson.M]), the two type assertions ([as_slice],
    [as_map]) which are the whole payload validator of the code, the
    filters passed to the driver ([filter], [matches]) and the case
    folding [fold_key]/[fold_eqb] with which [encoding/json] matches
    object keys to struct tags. *)

From S2P Require Import Prelude.

(** A decoded JSON value, as Go holds it in an [interface{}]: JSON null
    (and an absent field) is the nil interface [VNull], numbers are
    [float64] in Go and only their identity matters here, arrays are
    [[]interface{}] and objects [map[string]interface{}]. *)
#[warnings="-register-all"]
Inductive value : Type :=
| VNull
| VBool (b : bool)
| VNumber (n : Z)
| VString (s : string)
| VArray (vs : list value)
| VObject (kvs : list (string * value)).

(** A document of the store: the [map[string]interface{}] / [bson.M] of
    the code.  Documents built by the code have distinct keys. *)
Definition document : Type := list (string * value).

Definition field (k : string) (d : document) : option value :=
  snd <$> List.find (fun kv => String.eqb (fst kv) k) d.

(** [v.([]interface{})]: succeeds exactly on a JSON array. *)
Definition as_slice (v : value) : option (list value) :=
  match v with VArray vs => Some vs | _ => None end.

(** [v.(map[string]interface{})]: succeeds exactly on a JSON object. *)
Definition as_map (v : value) : option document :=
  match v with VObject kvs => Some kvs | _ => None end.

(** Equality filters of string fields, the only filters the modelled
    code builds ([bson.M{"_id": id}], the registry key). *)
Definition filter : Type := list (string * string).

Definition matches (f : filter) (d : document) : bool :=
  forallb (fun kv => match field (fst kv) d with
                     | Some (VString s) => String.eqb s (snd kv)
                     | _ => false
                     end) f.

(** The document a filter describes: inserting it makes the filter match. *)
Definition doc_of_filter (f : filter) : document :=
  (fun kv => (fst kv, VString (snd kv))) <$> f.

(** The case folding with which [encoding/json] matches a JSON key to
    a struct tag ([foldName] of [encoding/json/fold.go]): a key is read
    as UTF-8, ASCII letters are mapped to upper case and every other rune
    to the least rune of its case-fold orbit.  Only two non-ASCII runes
    fold to ASCII letters: the Kelvin sign U+212A (bytes E2 84 AA) folds
    to "K" and the long s U+017F (bytes C5 BF) to "S".  [fold_key] is the
    folded key when it is all ASCII, and [None] when some rune (or a
    byte that is not valid UTF-8) folds outside ASCII. *)
Definition is_ascii (a : ascii) : bool := (nat_of_ascii a <? 128)%nat.

Definition ascii_upper (a : ascii) : ascii :=
  let n := nat_of_ascii a in
  if (97 <=? n)%nat && (n <=? 122)%nat then ascii_of_nat (n - 32) else a.

Fixpoint fold_key (s : string) : option string :=
  match s with
  | EmptyString => Some EmptyString
  | String a s1 =>
      if is_ascii a then String (ascii_upper a) <$> fold_key s1
      else
        match s1 with
        | String b s2 =>
            if Ascii.eqb a "197"%char && Ascii.eqb b "191"%char then String "S" <$> fold_key s2
            else
              match s2 with
              | String c s3 =>
                  if Ascii.eqb a "226"%char && Ascii.eqb b "132"%char && Ascii.eqb c "170"%char
                  then String "K" <$> fold_key s3
                  else None
              | EmptyString => None
              end
        | EmptyString => None
        end
  end.

(** A key matches a tag when both fold to the same ASCII string.  The
    tags of the modelled structs are ASCII, so a key with a rune that
    folds outside ASCII matches none of them. *)
Definition fold_eqb (k tag : string) : bool :=
  match fold_key k, fold_key tag with
  | Some a, Some b => String.eqb a b
  | _, _ => false
  end.

(** A JSON string into a Go [string]; null leaves the value unchanged,
    anything else is a type error. *)
Definition decode_string (old : string) (v : value) : option string :=
  match v with
  | VString s => Some s
  | VNull => Some old
  | _ => None
  end.

Lemma as_slice_Some v vs : as_slice v = Some vs <-> v = VArray vs.
Proof. destruct v; simpl; split; intros H; inversion H; subst; done. Qed.

Lemma as_map_Some v d : as_map v = Some d <-> v = VObject d.
Proof. destruct v; simpl; split; intros H; inversion H; subst; done. Qed.

Lemma as_slice_as_map_exclusive v : as_slice v = None \/ as_map v = None.
Proof. destruct v; simpl; auto. Qed.

Lemma field_cons_eq k v d : field k ((k, v) :: d) = Some v.
Proof. unfold field. simpl. by rewrite String.eqb_refl. Qed.

Lemma field_cons_ne k k' v d : k' <> k -> field k ((k', v) :: d) = field k d.
Proof. intros Hne. unfold field. simpl. by rewrite (proj2 (String.eqb_neq k' k) Hne). Qed.

(** A filter with distinct keys matches the document it describes. *)
Lemma matches_doc_of_filter (f : filter) :
  NoDup f.*1 -> matches f (doc_of_filter f) = true.
Proof.
  intros Hnd. unfold matches. apply forallb_forall. intros [k s] Hin. simpl.
  induction f as [|[k' s'] f IH]; [done|].
  simpl in *. apply NoDup_cons in Hnd as [Hk' Hnd].
  destruct Hin as [[= <- <-]|Hin].
  - by rewrite field_cons_eq, String.eqb_refl.
  - assert (k' <> k).
    { intros ->. apply Hk'. apply list_elem_of_In, in_map_iff. by exists (k, s). }
    rewrite field_cons_ne by done. by apply IH.
Qed.

#[export] Hint Resolve as_slice_as_map_exclusive : zc.
#[export] Hint Rewrite field_cons_eq : zc_rw.
