(* ===== verification/Request.v ===== *)
(** * The request of the write endpoint and its decoding

    [writeDataRequest] is the struct of [src/data/write_data.go] (lines
    12-20); [decode_writeDataRequest] is what
    [json.NewDecoder(r.Body).Decode(reqData)] (line 24) does with it on
    an already parsed body: keys are matched to the struct tags by
    [encoding/json]'s case folding ([fold_eqb]), later keys win, JSON
    null leaves a string or bool field unchanged and sets a slice or
    interface field to nil, a repeated [object_ids] key decodes into the
    slice the struct already holds, and a value of the wrong JSON type
    is an error.

    The Go types of the fields are the small type language [gotype];
    [decodes_as] says which JSON values decode into a type, and
    [well_typed_body] which bodies decode into the struct.  The lemmas
    show that decoding succeeds exactly on the well-typed bodies, which
    [WriteData.v] turns into the characterisation of its 422 answer. *)

From S2P Require Import Prelude Json.

(** ** The request *)

Record writeDataRequest : Type := mk_request {
  PluginID : string;
  CollectionName : string;
  OrganizationID : string;
  BulkWrite : bool;
  ObjectID : string;
  ObjectIDs : list string;
  Payload : value
}.

(** [new(writeDataRequest)]: every field at its zero value. *)
Definition zero_request : writeDataRequest := mk_request "" "" "" false "" [] VNull.

(** The struct fields, by their JSON tags. *)
Inductive req_field : Type :=
| FPluginID | FCollectionName | FOrganizationID | FBulkWrite
| FObjectID | FObjectIDs | FPayload.

Definition field_tags : list (string * req_field) :=
  [("plugin_id", FPluginID); ("collection_name", FCollectionName);
   ("organization_id", FOrganizationID); ("bulk_write", FBulkWrite);
   ("object_id", FObjectID); ("object_ids", FObjectIDs); ("payload", FPayload)].

(** [encoding/json] matches a key to the tag it folds to. *)
Definition lookup_tag (k : string) : option req_field :=
  snd <$> List.find (fun tf => fold_eqb k tf.1) field_tags.

(** ** The decoder *)

(** A Go slice is its elements and the rest of its backing array (up to
    its capacity).  Decoding keeps, besides the struct, the rest of the
    backing array of [ObjectIDs], because a repeated [object_ids] key is
    decoded into the slice already there. *)
Record decode_state : Type := mk_dstate {
  ds_req : writeDataRequest;
  ds_ids_rest : list string
}.

(** The elements of a JSON array decoded into the slots of a backing
    array: element [i] into slot [i] (a null element leaves the string
    in the slot), slots past the end of the array being fresh zero
    strings. *)
Fixpoint decode_elems (backing : list string) (vs : list value) : option (list string) :=
  match vs with
  | [] => Some []
  | v :: vs' =>
      e ← decode_string (default "" (head backing)) v;
      es ← decode_elems (tail backing) vs';
      Some (e :: es)
  end.

(** A JSON value into a [[]string] holding [old], its backing array
    continuing with [rest] ([decodeState.array]): null sets the nil
    slice and [[]] an empty one; an array of [n] elements is decoded
    into the first [n] slots of the backing array, then the slice is cut
    to length [n].  The result is the new slice and the rest of its
    backing array. *)
Definition decode_strings (old rest : list string) (v : value) : option (list string * list string) :=
  match v with
  | VNull => Some ([], [])
  | VArray [] => Some ([], [])
  | VArray vs =>
      (fun es => (es, drop (List.length vs) (old ++ rest))) <$> decode_elems (old ++ rest) vs
  | _ => None
  end.

Definition set_field (st : decode_state) (f : req_field) (v : value) : option decode_state :=
  let '(mk_dstate (mk_request p c o b i ids pl) rest) := st in
  let keep r := mk_dstate r rest in
  match f with
  | FPluginID => (fun p' => keep (mk_request p' c o b i ids pl)) <$> decode_string p v
  | FCollectionName => (fun c' => keep (mk_request p c' o b i ids pl)) <$> decode_string c v
  | FOrganizationID => (fun o' => keep (mk_request p c o' b i ids pl)) <$> decode_string o v
  | FBulkWrite =>
      match v with
      | VBool b' => Some (keep (mk_request p c o b' i ids pl))
      | VNull => Some st
      | _ => None
      end
  | FObjectID => (fun i' => keep (mk_request p c o b i' ids pl)) <$> decode_string i v
  | FObjectIDs =>
      (fun r => mk_dstate (mk_request p c o b i r.1 pl) r.2) <$> decode_strings ids rest v
  | FPayload => Some (keep (mk_request p c o b i ids v))
  end.

(** One key of the body: a key that names a field sets it, an unknown
    key is skipped, and the first error stops decoding. *)
Definition decode_key (acc : option decode_state) (kv : string * value) : option decode_state :=
  st ← acc;
  match lookup_tag kv.1 with
  | Some f => set_field st f kv.2
  | None => Some st
  end.

(** [json.NewDecoder(r.Body).Decode(reqData)] on an already parsed body:
    null leaves the zero struct, an object sets the fields its keys name
    (unknown keys are ignored, later keys win), anything else or a
    mistyped field is an error. *)
Definition decode_writeDataRequest (v : value) : option writeDataRequest :=
  match v with
  | VNull => Some zero_request
  | VObject kvs => ds_req <$> foldl decode_key (Some (mk_dstate zero_request [])) kvs
  | _ => None
  end.

(** ** The types of the fields *)

(** The Go types of the struct's fields. *)
Inductive gotype : Type :=
| TString
| TBool
| TSlice (t : gotype)
| TInterface.

Definition field_type (f : req_field) : gotype :=
  match f with
  | FPluginID | FCollectionName | FOrganizationID | FObjectID => TString
  | FBulkWrite => TBool
  | FObjectIDs => TSlice TString
  | FPayload => TInterface
  end.

(** The JSON values [encoding/json] decodes into a Go value of type
    [t]: null into any type, a string into a [string], a boolean into a
    [bool], an array of decodable values into a slice, anything into an
    [interface{}]. *)
Fixpoint decodes_as (t : gotype) (v : value) : bool :=
  match t, v with
  | _, VNull => true
  | TString, VString _ => true
  | TBool, VBool _ => true
  | TSlice t', VArray vs => forallb (decodes_as t') vs
  | TInterface, _ => true
  | _, _ => false
  end.

Definition key_typed (kv : string * value) : bool :=
  match lookup_tag kv.1 with
  | Some f => decodes_as (field_type f) kv.2
  | None => true
  end.

(** The bodies that decode into the struct: null, or an object each of
    whose keys that names a field holds a value of the field's type. *)
Definition well_typed_body (v : value) : bool :=
  match v with
  | VNull => true
  | VObject kvs => forallb key_typed kvs
  | _ => false
  end.

(** ** Which bodies decode *)

Lemma decode_string_is_Some old v :
  is_Some (decode_string old v) <-> decodes_as TString v = true.
Proof. destruct v; simpl; split; intros H; try done; by eexists || by destruct H. Qed.

Lemma decode_elems_is_Some backing vs :
  is_Some (decode_elems backing vs) <-> forallb (decodes_as TString) vs = true.
Proof.
  revert backing. induction vs as [|v vs IH]; intros backing; cbn [decode_elems forallb];
    [by split; [|eexists]|].
  rewrite andb_true_iff, <- (decode_string_is_Some (default "" (head backing)) v), <- (IH (tail backing)).
  destruct (decode_string _ v), (decode_elems _ vs); simpl; naive_solver.
Qed.

Lemma decode_strings_is_Some old rest v :
  is_Some (decode_strings old rest v) <-> decodes_as (TSlice TString) v = true.
Proof.
  destruct v as [| | | |[|x vs]|]; cbn [decode_strings decodes_as];
    try (split; [by intros [] | done]); try (by split; [|eexists]).
  by rewrite fmap_is_Some, decode_elems_is_Some.
Qed.

Lemma set_field_is_Some st f v :
  is_Some (set_field st f v) <-> decodes_as (field_type f) v = true.
Proof.
  destruct st as [[] ?], f; simpl; rewrite ?fmap_is_Some, ?decode_string_is_Some, ?decode_strings_is_Some;
    try done; destruct v; simpl; split; intros H; try done; by eexists || by destruct H.
Qed.

Lemma foldl_decode_key_None kvs : foldl decode_key None kvs = None.
Proof. by induction kvs. Qed.

Lemma foldl_decode_key_is_Some kvs st :
  is_Some (foldl decode_key (Some st) kvs) <-> forallb key_typed kvs = true.
Proof.
  revert st. induction kvs as [|[k v] kvs IH]; intros st; simpl; [by split; [|eexists]|].
  unfold key_typed at 1. simpl. destruct (lookup_tag k) as [f|]; [|apply IH].
  destruct (set_field st f v) as [st'|] eqn:Hs.
  - rewrite IH. assert (decodes_as (field_type f) v = true) as ->; [|done].
    apply (set_field_is_Some st). by eexists.
  - rewrite foldl_decode_key_None. split; [by intros []|].
    intros [Hv _]%andb_prop. apply (set_field_is_Some st) in Hv. rewrite Hs in Hv. by destruct Hv.
Qed.

(** Decoding succeeds exactly on the well-typed bodies. *)
Lemma decode_writeDataRequest_is_Some v :
  is_Some (decode_writeDataRequest v) <-> well_typed_body v = true.
Proof.
  destruct v; simpl; [by split; [|eexists] | split; [by intros [] | done]..|].
  by rewrite fmap_is_Some, foldl_decode_key_is_Some.
Qed.

(** A request body, when there is one, decodes exactly when it is well
    typed. *)
Lemma body_decodes_iff (body : option value) :
  (exists v, body = Some v /\ well_typed_body v = true) <->
  is_Some (body ≫= decode_writeDataRequest).
Proof.
  destruct body as [v|]; simpl; [|split; [by intros (? & ? & _) | by intros []]].
  rewrite decode_writeDataRequest_is_Some. split; [by intros (? & [= ->] & ?) | eauto].
Qed.

(** ** Concrete bodies *)

(** A repeated [object_ids] key decodes into the slice of the first:
    the null element keeps the "a" decoded before it, the shorter second
    array cuts the slice, and a key spelt with the Kelvin sign (U+212A,
    bytes E2 84 AA) sets [bulk_write]. *)
Example decode_repeated_object_ids :
  decode_writeDataRequest
    (VObject [("object_ids", VArray [VString "a"; VString "b"]);
              ("OBJECT_IDS", VArray [VNull]);
              (String "b" (String "u" (String "l" (String "226" (String "132" (String "170"
                 "_write"))))), VBool true)]) =
  Some (mk_request "" "" "" true "" ["a"] VNull).
Proof. vm_compute. reflexivity. Qed.
