(* ===== verification/Http.v ===== *)
(** * The response side of [net/http] and the response helpers of [utils]

    A handler observes an [http.ResponseWriter] only through the status
    line, the [Content-Type] header and the body it writes.  [response]
    records those three; [WriteHeader], [Write] and [SetContentType]
    follow [net/http]: the first [WriteHeader] fixes the status and later
    ones are ignored ("superfluous WriteHeader"), a [Write] before any
    [WriteHeader] commits status 200, header changes after the status is
    committed are not sent (the header is a snapshot taken at
    [WriteHeader]), and a body written without a content type is sent
    with the sniffed one.  The body is kept as a list of
    structured chunks ([out]) rather than bytes.  [GetError] and
    [GetSuccess] are the [utils] helpers every handler answers with. *)

From S2P Require Import Prelude Json.

(** One chunk written to the body: an error envelope of [GetError], a
    success envelope of [GetSuccess], raw text of [fmt.Fprintf], or a
    JSON object written by [json.NewEncoder(w).Encode]. *)
Inductive out : Type :=
| OError (msg : string) (code : Z)
| OSuccess (msg : string) (data : value)
| OText (s : string)
| OJson (v : value).

Record response : Type := mk_response {
  status : option Z;
  content_type : option string;
  body : list out
}.

Definition empty_response : response := mk_response None None [].

Definition StatusOK : Z := 200.
Definition StatusCreated : Z := 201.
Definition StatusBadRequest : Z := 400.
Definition StatusNotFound : Z := 404.
Definition StatusUnprocessableEntity : Z := 422.
Definition StatusInternalServerError : Z := 500.

(** [w.WriteHeader(code)]: only the first call has an effect. *)
Definition WriteHeader (code : Z) (w : response) : response :=
  match status w with
  | None => mk_response (Some code) (content_type w) (body w)
  | Some _ => w
  end.

(** The content type [net/http] sniffs ([http.DetectContentType]) for
    the first chunk of a body when the handler set none.  The chunks the
    modelled handlers write without a content type are JSON documents
    and the text "hello world": neither starts with a signature of the
    sniffing table and both are valid UTF-8, so both sniff as plain
    text. *)
Definition sniffed_content_type : string := "text/plain; charset=utf-8".

(** [w.Write(b)]: commits status 200 if no status was written yet; the
    first chunk of a body without a content type gets the sniffed one. *)
Definition Write (o : out) (w : response) : response :=
  let w' := WriteHeader StatusOK w in
  mk_response (status w') (Some (default sniffed_content_type (content_type w'))) (body w' ++ [o]).

(** [w.Header().Set("Content-Type", ct)]: lost once the status is sent. *)
Definition SetContentType (ct : string) (w : response) : response :=
  match status w with
  | None => mk_response None (Some ct) (body w)
  | Some _ => w
  end.

(** [utils.GetError(err, code, w)]: JSON content type, status [code],
    error envelope. *)
Definition GetError (err : string) (code : Z) (w : response) : response :=
  Write (OError err code) (WriteHeader code (SetContentType "application/json" w)).

(** [utils.GetSuccess(msg, data, w)]: JSON content type, status 200,
    success envelope. *)
Definition GetSuccess (msg : string) (data : value) (w : response) : response :=
  Write (OSuccess msg data) (WriteHeader StatusOK (SetContentType "application/json" w)).

(** ** Laws of the writer *)

Lemma WriteHeader_committed code w c :
  status w = Some c -> WriteHeader code w = w.
Proof. unfold WriteHeader. by intros ->. Qed.

Lemma status_WriteHeader code w :
  status (WriteHeader code w) = Some (default code (status w)).
Proof. unfold WriteHeader. by destruct (status w) eqn:E. Qed.

Lemma body_WriteHeader code w : body (WriteHeader code w) = body w.
Proof. unfold WriteHeader. by destruct (status w). Qed.

Lemma status_Write o w : status (Write o w) = Some (default StatusOK (status w)).
Proof. unfold Write. cbn [status]. apply status_WriteHeader. Qed.

Lemma body_Write o w : body (Write o w) = body w ++ [o].
Proof. unfold Write. cbn [body]. by rewrite body_WriteHeader. Qed.

Lemma status_SetContentType ct w : status (SetContentType ct w) = status w.
Proof. unfold SetContentType. by destruct (status w) eqn:E. Qed.

Lemma body_SetContentType ct w : body (SetContentType ct w) = body w.
Proof. unfold SetContentType. by destruct (status w). Qed.

#[export] Hint Rewrite status_WriteHeader body_WriteHeader status_Write body_Write
  status_SetContentType body_SetContentType : zc_rw.

(** An error answer on a fresh writer has exactly the requested status
    and one error envelope. *)
Lemma GetError_fresh err code :
  GetError err code empty_response =
  mk_response (Some code) (Some "application/json") [OError err code].
Proof. reflexivity. Qed.

(** Once a status is committed, [GetSuccess] keeps it (the [201] of
    [handlePost] survives the [200] that [GetSuccess] asks for). *)
Lemma GetSuccess_keeps_status msg data w c :
  status w = Some c ->
  GetSuccess msg data w =
  mk_response (Some c) (Some (default sniffed_content_type (content_type w)))
    (body w ++ [OSuccess msg data]).
Proof.
  intros Hc. unfold GetSuccess, SetContentType, Write.
  rewrite Hc, (WriteHeader_committed _ _ _ Hc), (WriteHeader_committed _ _ _ Hc).
  by destruct w; simpl in *; subst.
Qed.
