(* ===== verification/Store.v ===== *)
(** * The store adapter: an interface over the document store

    The write path reaches MongoDB only through [utils.GetMongoDbDoc]
    (find one document matching a filter) and [utils.CreateMongoDbDoc]
    (insert one document).  Both sit outside [src/]; the specification
    treats the store as an opaque CRUD backend.  The class [DocStore]
    states what the core needs of it: the documents of each collection
    in insertion order ([coll_docs]), whether calls on a collection reach
    the server ([available]), and appending a document ([append_doc]).
    [DocStoreLaws] are the laws the clients rely on.  The two driver
    calls are defined once over the interface, so the registry and the
    dispatcher are proved for every store satisfying the laws;
    [MemStore] is an instance on stdpp's [gmap] that discharges them and
    lets the examples compute.

    A document inserted by [CreateMongoDbDoc] also receives a fresh
    [_id] from the server; no code path of [src/] reads that id, so the
    model does not generate it. *)

From S2P Require Import Prelude Json.

(** The two ways a driver call fails: no document matches the filter
    ([mongo.ErrNoDocuments]), or the server cannot be reached. *)
Inductive db_error : Type :=
| ErrNoDocuments
| ErrUnavailable.

Definition db_error_msg (e : db_error) : string :=
  match e with
  | ErrNoDocuments => "mongo: no documents in result"
  | ErrUnavailable => "server selection error"
  end.

Class DocStore (St : Type) := {
  coll_docs : St -> string -> list document;
  available : St -> string -> bool;
  append_doc : St -> string -> document -> St
}.

Class DocStoreLaws (St : Type) `{DocStore St} := {
  coll_docs_append_same s c d : coll_docs (append_doc s c d) c = coll_docs s c ++ [d];
  coll_docs_append_other s c c' d : c <> c' -> coll_docs (append_doc s c d) c' = coll_docs s c';
  available_append s c c' d : available (append_doc s c d) c' = available s c'
}.

Section Driver.
Context {St : Type} `{DocStore St}.

(** [utils.GetMongoDbDoc(coll, filter)]: the first matching document. *)
Definition GetMongoDbDoc (coll : string) (f : filter) (s : St) : db_error + document :=
  if available s coll then
    match List.find (matches f) (coll_docs s coll) with
    | Some d => inr d
    | None => inl ErrNoDocuments
    end
  else inl ErrUnavailable.

(** [utils.CreateMongoDbDoc(coll, doc)]: insert one document. *)
Definition CreateMongoDbDoc (coll : string) (d : document) : ST St (db_error + unit) :=
  fun s => if available s coll then (inr tt, append_doc s coll d) else (inl ErrUnavailable, s).

(** Two stores agree outside collection [c]. *)
Definition agree_except (c : string) (s s' : St) : Prop :=
  forall c', c' <> c -> coll_docs s' c' = coll_docs s c' /\ available s' c' = available s c'.

(** [s'] holds the documents of [s] in collection [c], followed by at
    most [n] new ones. *)
Definition appends_at_most (n : nat) (c : string) (s s' : St) : Prop :=
  exists new, coll_docs s' c = coll_docs s c ++ new /\ List.length new <= n.

End Driver.

Section DriverLaws.
Context {St : Type} `{DocStoreLaws St}.

Lemma CreateMongoDbDoc_available coll d s :
  available s coll = true ->
  CreateMongoDbDoc coll d s = (inr tt, append_doc s coll d).
Proof. unfold CreateMongoDbDoc. by intros ->. Qed.

Lemma CreateMongoDbDoc_unavailable coll d s :
  available s coll = false -> CreateMongoDbDoc coll d s = (inl ErrUnavailable, s).
Proof. unfold CreateMongoDbDoc. by intros ->. Qed.

Lemma agree_except_refl c (s : St) : agree_except c s s.
Proof. done. Qed.

Lemma agree_except_trans c (s1 s2 s3 : St) :
  agree_except c s1 s2 -> agree_except c s2 s3 -> agree_except c s1 s3.
Proof. intros H12 H23 c' Hc. destruct (H12 c' Hc), (H23 c' Hc). split; congruence. Qed.

Lemma agree_except_append c d (s : St) : agree_except c s (append_doc s c d).
Proof. intros c' Hc. split; [by apply coll_docs_append_other | apply available_append]. Qed.

Lemma agree_except_CreateMongoDbDoc c d (s : St) :
  agree_except c s (CreateMongoDbDoc c d s).2.
Proof. unfold CreateMongoDbDoc. destruct (available s c); [apply agree_except_append | done]. Qed.

Lemma available_CreateMongoDbDoc c c' d (s : St) :
  available (CreateMongoDbDoc c d s).2 c' = available s c'.
Proof. unfold CreateMongoDbDoc. destruct (available s c); [apply available_append | done]. Qed.

(** Reads see what the store holds: a read of a collection is
    unaffected by an insert into another one. *)
Lemma GetMongoDbDoc_append_other c c' d f (s : St) :
  c <> c' -> GetMongoDbDoc c' f (append_doc s c d) = GetMongoDbDoc c' f s.
Proof.
  intros Hne. unfold GetMongoDbDoc. by rewrite available_append, coll_docs_append_other.
Qed.

Lemma appends_at_most_eq n c (s s' : St) :
  coll_docs s' c = coll_docs s c -> appends_at_most n c s s'.
Proof. intros Heq. exists []. rewrite app_nil_r. split; [done | simpl; lia]. Qed.

Lemma appends_at_most_trans n m c (s1 s2 s3 : St) :
  appends_at_most n c s1 s2 -> appends_at_most m c s2 s3 -> appends_at_most (n + m) c s1 s3.
Proof.
  intros (new1 & H1 & Hn) (new2 & H2 & Hm). exists (new1 ++ new2).
  rewrite H2, H1, app_assoc, length_app. split; [done | lia].
Qed.

(** An insert adds one document to its collection and none elsewhere. *)
Lemma CreateMongoDbDoc_appends c c' d (s : St) :
  appends_at_most (if bool_decide (c' = c) then 1 else 0) c' s (CreateMongoDbDoc c d s).2.
Proof.
  unfold CreateMongoDbDoc. destruct (available s c); simpl; [|by apply appends_at_most_eq].
  case_bool_decide as Hc; [subst; exists [d]; by rewrite coll_docs_append_same|].
  apply appends_at_most_eq. apply coll_docs_append_other. congruence.
Qed.

End DriverLaws.

#[export] Hint Resolve agree_except_refl agree_except_append agree_except_CreateMongoDbDoc : zc.
#[export] Hint Rewrite @available_CreateMongoDbDoc : zc_rw.

(** ** An in-memory store *)
Module MemStore.
Record mem : Type := mk_mem {
  mem_colls : gmap string (list document);
  mem_down : gset string
}.

Definition mem_docs (m : mem) (c : string) : list document :=
  default [] (mem_colls m !! c).

#[export] Instance mem_DocStore : DocStore mem := {
  coll_docs := mem_docs;
  available m c := bool_decide (c ∉ mem_down m);
  append_doc m c d := mk_mem (<[c := mem_docs m c ++ [d]]> (mem_colls m)) (mem_down m)
}.

#[export] Instance mem_DocStoreLaws : DocStoreLaws mem.
Proof.
  split; intros; simpl; unfold mem_docs; simpl.
  - by rewrite lookup_insert_eq.
  - by rewrite lookup_insert_ne.
  - done.
Qed.

(** A store built from a list of collections, all of them reachable. *)
Definition of_list (l : list (string * list document)) : mem :=
  mk_mem (list_to_map l) ∅.

End MemStore.
