(* ===== verification/Registry.v ===== *)
(** * The namespace registry

    A plugin writes into the physical collection
    [getPrefixedCollectionName pluginID orgID collName]; the triple is
    recorded in the [plugin_collections] collection the first time it is
    used.  This file models the naming scheme with its inverse
    [split_prefixed], the existence checker [recordExists], the registry
    read [pluginHasCollection] and write [createPluginCollectionRecord]
    (all four outside [src/], modelled from the specification), and the
    guard [ensureCollection] that [WriteData] wraps around them
    ([write_data.go] lines 42-45).  [registry_of] abstracts the registry
    collection to the set of triples it records. *)

From S2P Require Import Prelude Models Json Store.

(** ** Physical collection names *)

(** [getPrefixedCollectionName]: the three key fields joined by "_". *)
Definition getPrefixedCollectionName (pluginID orgID collName : string) : string :=
  pluginID +:+ "_" +:+ orgID +:+ "_" +:+ collName.

Definition underscore : ascii := "_"%char.

(** Split a string at its first occurrence of [c]. *)
Fixpoint split_first (c : ascii) (s : string) : option (string * string) :=
  match s with
  | EmptyString => None
  | String a s' =>
      if ascii_dec a c then Some (EmptyString, s')
      else match split_first c s' with
           | Some (x, y) => Some (String a x, y)
           | None => None
           end
  end.

(** Recover (plugin, organization, collection) from a physical name. *)
Definition split_prefixed (s : string) : option (string * string * string) :=
  match split_first underscore s with
  | Some (p, r) =>
      match split_first underscore r with
      | Some (o, c) => Some (p, o, c)
      | None => None
      end
  | None => None
  end.

Lemma split_first_app c x y :
  count_char c x = 0 -> split_first c (x +:+ String c y) = Some (x, y).
Proof.
  induction x as [|a x IH]; simpl; intros Hx.
  - by destruct (ascii_dec c c).
  - destruct (ascii_dec a c); [lia|]. by rewrite IH.
Qed.

Lemma count_char_getPrefixedCollectionName p o c :
  count_char underscore (getPrefixedCollectionName p o c) =
  count_char underscore p + count_char underscore o + count_char underscore c + 2.
Proof. unfold getPrefixedCollectionName. autorewrite with zc_rw. simpl. lia. Qed.

(** ** The registry and the existence checker *)

Definition registry_filter (pluginID orgID collName : string) : filter :=
  [("plugin_id", pluginID); ("organization_id", orgID); ("collection_name", collName)].

(** The triple a registry document records, if it has the three fields. *)
Definition triple_of_doc (d : document) : option (string * string * string) :=
  match field "plugin_id" d, field "organization_id" d, field "collection_name" d with
  | Some (VString p), Some (VString o), Some (VString c) => Some (p, o, c)
  | _, _, _ => None
  end.

Section Registry.
Context {St : Type} `{DocStoreLaws St}.

(** [recordExists(collName, id)]: a document with that [_id] exists;
    any driver error reads as "absent". *)
Definition recordExists (collName id : string) (s : St) : bool :=
  match GetMongoDbDoc collName [("_id", id)] s with
  | inr _ => true
  | inl _ => false
  end.

(** [pluginHasCollection(pluginID, orgID, collName)]. *)
Definition pluginHasCollection (pluginID orgID collName : string) (s : St) : bool :=
  match GetMongoDbDoc PluginCollectionsCollectionName (registry_filter pluginID orgID collName) s with
  | inr _ => true
  | inl _ => false
  end.

(** [createPluginCollectionRecord(pluginID, orgID, collName)]. *)
Definition createPluginCollectionRecord (pluginID orgID collName : string) : ST St (db_error + unit) :=
  CreateMongoDbDoc PluginCollectionsCollectionName
    (doc_of_filter (registry_filter pluginID orgID collName)).

(** [WriteData] lines 43-45: register the triple unless it is known;
    the error of the registration is dropped. *)
Definition ensureCollection (pluginID orgID collName : string) : ST St unit :=
  let! has := st_gets (pluginHasCollection pluginID orgID collName) in
  if negb has then
    (let! _ := createPluginCollectionRecord pluginID orgID collName in st_ret tt)
  else st_ret tt.

(** The registry as the set of triples it records. *)
Definition registry_docs (s : St) : list (string * string * string) :=
  omap triple_of_doc (coll_docs s PluginCollectionsCollectionName).

Definition registry_of (s : St) : gset (string * string * string) :=
  list_to_set (registry_docs s).

(** How many registry documents record the triple. *)
Definition record_count (pluginID orgID collName : string) (s : St) : nat :=
  count_if (matches (registry_filter pluginID orgID collName))
    (coll_docs s PluginCollectionsCollectionName).

End Registry.

(** ** Registry documents *)

Lemma matches_registry_filter d p o c :
  matches (registry_filter p o c) d = true <-> triple_of_doc d = Some (p, o, c).
Proof.
  unfold matches, registry_filter, triple_of_doc. simpl.
  destruct (field "plugin_id" d) as [[]|]; simpl; try naive_solver;
  destruct (field "organization_id" d) as [[]|]; simpl; rewrite ?andb_false_r; try naive_solver;
  destruct (field "collection_name" d) as [[]|]; simpl; rewrite ?andb_false_r, ?andb_true_r;
  try naive_solver.
  rewrite !andb_true_iff, !String.eqb_eq. naive_solver.
Qed.

Lemma triple_of_registry_record p o c :
  triple_of_doc (doc_of_filter (registry_filter p o c)) = Some (p, o, c).
Proof. reflexivity. Qed.

Lemma matches_registry_record p o c :
  matches (registry_filter p o c) (doc_of_filter (registry_filter p o c)) = true.
Proof. apply matches_registry_filter, triple_of_registry_record. Qed.

(** A registry record matches exactly the filter of its own triple. *)
Lemma matches_registry_record_iff p o c p' o' c' :
  matches (registry_filter p o c) (doc_of_filter (registry_filter p' o' c')) =
  bool_decide ((p', o', c') = (p, o, c)).
Proof.
  apply eq_bool_prop_intro. rewrite bool_decide_spec, Is_true_true, matches_registry_filter.
  rewrite triple_of_registry_record. naive_solver.
Qed.

#[export] Hint Rewrite triple_of_registry_record matches_registry_record : zc_rw.

Section RegistryLaws.
Context {St : Type} `{DocStoreLaws St}.
Implicit Types (s : St).

Lemma registry_of_spec s t :
  t ∈ registry_of s <->
  exists d, d ∈ coll_docs s PluginCollectionsCollectionName /\ matches (registry_filter t.1.1 t.1.2 t.2) d = true.
Proof.
  destruct t as [[p o] c]. unfold registry_of, registry_docs.
  rewrite elem_of_list_to_set, list_elem_of_omap.
  setoid_rewrite matches_registry_filter. done.
Qed.

Lemma registry_docs_append_reg s d :
  registry_docs (append_doc s PluginCollectionsCollectionName d) = registry_docs s ++ option_list (triple_of_doc d).
Proof.
  unfold registry_docs. rewrite coll_docs_append_same, omap_app. simpl.
  by destruct (triple_of_doc d); rewrite ?app_nil_r.
Qed.

Lemma registry_docs_append_other s c d :
  c <> PluginCollectionsCollectionName -> registry_docs (append_doc s c d) = registry_docs s.
Proof. intros Hc. unfold registry_docs. by rewrite coll_docs_append_other. Qed.

(** The registry read answers membership in the abstract registry. *)
Lemma pluginHasCollection_spec p o c s :
  available s PluginCollectionsCollectionName = true ->
  pluginHasCollection p o c s = bool_decide ((p, o, c) ∈ registry_of s).
Proof.
  intros Ha. unfold pluginHasCollection, GetMongoDbDoc. rewrite Ha.
  pose proof (registry_of_spec s (p, o, c)) as Hs. cbn [fst snd] in Hs.
  rewrite <- find_is_Some_exists in Hs.
  case_bool_decide as Hm; destruct (List.find _ _) eqn:E; try done.
  - apply Hs in Hm. by destruct Hm.
  - exfalso. apply Hm, Hs. by eexists.
Qed.

Lemma pluginHasCollection_unavailable p o c s :
  available s PluginCollectionsCollectionName = false -> pluginHasCollection p o c s = false.
Proof. intros Ha. unfold pluginHasCollection, GetMongoDbDoc. by rewrite Ha. Qed.

(** What the guard of [WriteData] does to the store, in one equation. *)
Lemma ensureCollection_state p o c s :
  ensureCollection p o c s =
  (tt, if available s PluginCollectionsCollectionName && negb (pluginHasCollection p o c s)
       then append_doc s PluginCollectionsCollectionName (doc_of_filter (registry_filter p o c))
       else s).
Proof.
  unfold ensureCollection, createPluginCollectionRecord, CreateMongoDbDoc. st_unfold.
  destruct (pluginHasCollection p o c s); simpl;
    destruct (available s PluginCollectionsCollectionName); reflexivity.
Qed.

Lemma available_ensureCollection p o c s c' :
  available (ensureCollection p o c s).2 c' = available s c'.
Proof.
  rewrite ensureCollection_state. simpl.
  destruct (_ && _); [apply available_append | done].
Qed.

Lemma agree_except_ensureCollection p o c s :
  agree_except PluginCollectionsCollectionName s (ensureCollection p o c s).2.
Proof. rewrite ensureCollection_state. simpl. destruct (_ && _); auto with zc. Qed.

Lemma record_count_zero_iff p o c s :
  available s PluginCollectionsCollectionName = true ->
  record_count p o c s = 0 <-> pluginHasCollection p o c s = false.
Proof.
  intros Ha. unfold record_count, pluginHasCollection, GetMongoDbDoc. rewrite Ha.
  rewrite <- find_None_count_if. by destruct (List.find _ _).
Qed.

Lemma record_count_append_record p o c s :
  record_count p o c
    (append_doc s PluginCollectionsCollectionName (doc_of_filter (registry_filter p o c)))
  = 1 + record_count p o c s.
Proof.
  unfold record_count. rewrite coll_docs_append_same.
  autorewrite with zc_rw. lia.
Qed.

(** The registry after the guard, in one equation. *)
Lemma registry_of_ensureCollection p o c s :
  registry_of (ensureCollection p o c s).2 =
  if available s PluginCollectionsCollectionName && negb (pluginHasCollection p o c s)
  then {[(p, o, c)]} ∪ registry_of s else registry_of s.
Proof.
  rewrite ensureCollection_state. cbn [snd]. destruct (_ && _); [|done].
  unfold registry_of at 1. rewrite registry_docs_append_reg, triple_of_registry_record.
  cbn [option_list]. rewrite list_to_set_app_L. simpl. set_solver.
Qed.

Lemma ensureCollection_registered p o c s :
  available s PluginCollectionsCollectionName = true ->
  (p, o, c) ∈ registry_of (ensureCollection p o c s).2.
Proof.
  intros Ha. rewrite registry_of_ensureCollection, Ha, pluginHasCollection_spec by done.
  case_bool_decide; cbn [negb andb]; set_solver.
Qed.

Lemma registry_of_ensureCollection_subset p o c s :
  registry_of (ensureCollection p o c s).2 ⊆ {[(p, o, c)]} ∪ registry_of s.
Proof. rewrite registry_of_ensureCollection. destruct (_ && _); set_solver. Qed.

(** C13: refinement.  Against an abstract registry that is a set of
    triples, the guard of [WriteData] is the insertion of the triple
    whenever the registry collection is reachable. *)
Theorem ensureCollection_refines p o c s :
  available s PluginCollectionsCollectionName = true ->
  registry_of (ensureCollection p o c s).2 = {[(p, o, c)]} ∪ registry_of s.
Proof.
  intros Ha. rewrite registry_of_ensureCollection, Ha, pluginHasCollection_spec by done.
  case_bool_decide as Hin; cbn [negb andb]; set_solver.
Qed.

(** Running the guard again after it ran changes nothing. *)
Lemma ensureCollection_twice p o c s :
  (ensureCollection p o c (ensureCollection p o c s).2).2 = (ensureCollection p o c s).2.
Proof.
  rewrite (ensureCollection_state p o c (ensureCollection p o c s).2). simpl.
  rewrite available_ensureCollection.
  destruct (available s PluginCollectionsCollectionName) eqn:Ha; [|done]. simpl.
  rewrite pluginHasCollection_spec by (by rewrite available_ensureCollection).
  rewrite bool_decide_eq_true_2; [done|]. by apply ensureCollection_registered.
Qed.

Lemma ensureCollection_iter p o c s n :
  Nat.iter (S n) (fun s => (ensureCollection p o c s).2) s = (ensureCollection p o c s).2.
Proof.
  induction n as [|n IH]; [done|].
  change (Nat.iter (S (S n)) ?f s) with (f (Nat.iter (S n) f s)).
  rewrite IH. apply ensureCollection_twice.
Qed.

(** C14: registering a fresh triple N >= 1 times in sequence leaves
    exactly one registry record for it. *)
Theorem ensureCollection_iter_single_record p o c s n :
  available s PluginCollectionsCollectionName = true ->
  record_count p o c s = 0 ->
  record_count p o c (Nat.iter (S n) (fun s => (ensureCollection p o c s).2) s) = 1.
Proof.
  intros Ha Hz. rewrite ensureCollection_iter, ensureCollection_state, Ha.
  apply record_count_zero_iff in Hz as Hh; [|done]. rewrite Hh. cbn [negb andb snd].
  rewrite record_count_append_record. lia.
Qed.

(** Sequential registration never duplicates a triple. *)
Lemma ensureCollection_NoDup p o c s :
  NoDup (registry_docs s) -> NoDup (registry_docs (ensureCollection p o c s).2).
Proof.
  intros Hnd. rewrite ensureCollection_state. cbn [snd].
  destruct (available s _) eqn:Ha; [|done].
  rewrite pluginHasCollection_spec by done.
  case_bool_decide as Hin; cbn [negb andb]; [done|].
  rewrite registry_docs_append_reg, triple_of_registry_record. cbn [option_list].
  apply NoDup_app. split; [done|]. split; [|apply NoDup_singleton].
  intros t Ht ->%list_elem_of_singleton. apply Hin.
  unfold registry_of. by apply elem_of_list_to_set.
Qed.

End RegistryLaws.

(** ** Concrete runs on the in-memory store *)

Import MemStore.

Definition empty_store : mem := of_list [].

Lemma ensureCollection_refines_witness :
  available empty_store PluginCollectionsCollectionName = true /\
  registry_of (ensureCollection "p1" "o1" "notes" empty_store).2
  = {[("p1", "o1", "notes")]} ∪ registry_of empty_store.
Proof. split; [vm_compute; reflexivity|]. apply ensureCollection_refines. vm_compute. reflexivity. Defined.

Lemma ensureCollection_iter_single_record_witness :
  record_count "p1" "o1" "notes"
    (Nat.iter 3 (fun s => (ensureCollection "p1" "o1" "notes" s).2) empty_store) = 1.
Proof. apply ensureCollection_iter_single_record; vm_compute; reflexivity. Defined.
