(* ===== verification/WriteData.v ===== *)
(** * The plugin write endpoint of [src/data/write_data.go]

    [WriteData] threads a [world]: the document store (any [DocStore]
    with its laws) and the response being written.  Each Go function of
    the file is one definition, composed as the code composes them:
    the decoding of the body ([decode_writeDataRequest] of [Request.v],
    lines 23-27), the existence checks (lines 29-40), the registry guard
    [ensureCollection] (lines 42-45), the method switch [route] (lines
    47-54), the handlers [handlePost], [handlePut], [handleDelete] and
    the helpers [insertMany], [insertOne], [updateOne], [updateMany],
    [deleteOne], [deleteMany].  Go's [(int, error)] results are pairs
    [Z * option string], an [error] is [option string] ([None] is
    [nil]). *)

From S2P Require Import Prelude Models Json Http Store Registry Request.

(** ** The world the handlers act on *)

Section WriteData.
Context {St : Type} `{DocStoreLaws St}.

Record world : Type := mk_world { w_store : St; w_resp : response }.

Definition on_store {A} (m : ST St A) : ST world A :=
  fun w => let '(a, s') := m (w_store w) in (a, mk_world s' (w_resp w)).

Definition respond (f : response -> response) : ST world unit :=
  st_modify (fun w => mk_world (w_store w) (f (w_resp w))).

(** ** The write helpers *)

(** [insertMany]: checks the shape only; the insert is not written. *)
Definition insertMany (collName : string) (data : value) : Z * option string :=
  match as_slice data with
  | None => (0%Z, Some "type assertion error")
  | Some _ => (0%Z, None)
  end.

Definition insertOne (collName : string) (data : value) : ST St (option string) :=
  match as_map data with
  | None => st_ret (Some "type assertion error")
  | Some doc =>
      let! r := CreateMongoDbDoc collName doc in
      st_ret (match r with inl e => Some (db_error_msg e) | inr _ => None end)
  end.

(** [updateOne]: checks the shape only; the update is not written. *)
Definition updateOne (collName id : string) (upd : value) : option string :=
  match as_map upd with
  | None => Some "type assertion error"
  | Some _ => None
  end.

(** [updateMany]: checks the shape only; the update is not written. *)
Definition updateMany (collName : string) (ids : list string) (upd : value) : Z * option string :=
  match as_slice upd with
  | None => (0%Z, Some "type assertion error")
  | Some _ => (0%Z, None)
  end.

Definition deleteOne (collName id : string) : option string := None.

Definition deleteMany (collName : string) (ids : list string) : Z * option string := (0%Z, None).

Definition prefixCollectionName (wdr : writeDataRequest) : string :=
  getPrefixedCollectionName (PluginID wdr) (OrganizationID wdr) (CollectionName wdr).

Definition internal_error (e : string) : ST world unit :=
  respond (GetError ("an error occured: " +:+ e) StatusInternalServerError).

(** ** The handlers *)

Definition handlePost (wdr : writeDataRequest) : ST world unit :=
  let! res :=
    (if BulkWrite wdr then
       st_ret (insertMany (prefixCollectionName wdr) (Payload wdr))
     else
       let! err := on_store (insertOne (prefixCollectionName wdr) (Payload wdr)) in
       st_ret (1%Z, err)) in
  match res.2 with
  | Some e => internal_error e
  | None =>
      respond (WriteHeader StatusCreated) ;;;
      respond (GetSuccess "success" (VObject [("insert_count", VNumber res.1)]))
  end.

Definition handlePut (wdr : writeDataRequest) : ST world unit :=
  if String.eqb (CollectionName wdr) "" || String.eqb (PluginID wdr) "" then
    respond (GetError "invalid data destination" StatusBadRequest)
  else
    let res :=
      if BulkWrite wdr then
        updateMany (prefixCollectionName wdr) (ObjectIDs wdr) (Payload wdr)
      else (1%Z, updateOne (prefixCollectionName wdr) (ObjectID wdr) (Payload wdr)) in
    match res.2 with
    | Some e => internal_error e
    | None => respond (GetSuccess "success" (VObject [("update_count", VNumber res.1)]))
    end.

(** [fmt.Fprintf(w, "hello world")]. *)
Definition handleDelete (wdr : writeDataRequest) : ST world unit :=
  respond (Write (OText "hello world")).

(** The method switch; any other method falls through silently. *)
Definition route (method : string) (wdr : writeDataRequest) : ST world unit :=
  if String.eqb method "POST" then handlePost wdr
  else if String.eqb method "PUT" then handlePut wdr
  else if String.eqb method "DELETE" then handleDelete wdr
  else st_ret tt.

(** [WriteData(w, r)]: [body] is the parsed request body, [None] when
    it is not JSON at all. *)
Definition WriteData (method : string) (body : option value) : ST world unit :=
  match body ≫= decode_writeDataRequest with
  | None => respond (GetError "error processing request" StatusUnprocessableEntity)
  | Some r =>
      let! pe := on_store (st_gets (recordExists PluginCollectionName (PluginID r))) in
      if negb pe then
        respond (GetError "plugin with this id does not exist" StatusNotFound)
      else
        let! oe := on_store (st_gets (recordExists "organization" (OrganizationID r))) in
        if negb oe then
          respond (GetError "organization with this id does not exist" StatusNotFound)
        else
          on_store (ensureCollection (PluginID r) (OrganizationID r) (CollectionName r)) ;;;
          route method r
  end.

End WriteData.

Arguments world St : clear implicits.

(** The statuses the endpoint can answer each method with ([None]:
    nothing written). *)
Definition method_statuses (method : string) : list (option Z) :=
  if String.eqb method "POST" then
    [Some StatusCreated; Some StatusNotFound; Some StatusUnprocessableEntity;
     Some StatusInternalServerError]
  else if String.eqb method "PUT" then
    [Some StatusOK; Some StatusBadRequest; Some StatusNotFound; Some StatusUnprocessableEntity;
     Some StatusInternalServerError]
  else if String.eqb method "DELETE" then
    [Some StatusOK; Some StatusNotFound; Some StatusUnprocessableEntity]
  else [None; Some StatusNotFound; Some StatusUnprocessableEntity].

(** The statuses the method handlers can answer with. *)
Definition handler_statuses : list (option Z) :=
  [None; Some StatusOK; Some StatusCreated; Some StatusBadRequest; Some StatusInternalServerError].

(** ** How each stage acts on the world *)

Section WriteDataLemmas.
Context {St : Type} `{DocStoreLaws St}.
Implicit Types (s : St) (r : writeDataRequest) (resp : response) (w : world St).

Lemma WriteData_decode_error method body w :
  body ≫= decode_writeDataRequest = None ->
  WriteData method body w =
  (tt, mk_world (w_store w) (GetError "error processing request" StatusUnprocessableEntity (w_resp w))).
Proof. intros Hd. unfold WriteData. by rewrite Hd. Qed.

(** The pipeline after decoding: the two existence checks, the
    registry guard, then the method switch. *)
Lemma WriteData_decoded method body r s resp :
  body ≫= decode_writeDataRequest = Some r ->
  WriteData method body (mk_world s resp) =
  if negb (recordExists PluginCollectionName (PluginID r) s) then
    (tt, mk_world s (GetError "plugin with this id does not exist" StatusNotFound resp))
  else if negb (recordExists "organization" (OrganizationID r) s) then
    (tt, mk_world s (GetError "organization with this id does not exist" StatusNotFound resp))
  else
    route method r
      (mk_world (ensureCollection (PluginID r) (OrganizationID r) (CollectionName r) s).2 resp).
Proof.
  intros Hd. unfold WriteData. rewrite Hd.
  unfold st_bind at 1, on_store at 1, st_gets at 1. cbn [w_store w_resp].
  destruct (recordExists _ _ s); cbn [negb]; [|reflexivity].
  unfold st_bind at 1, on_store at 1, st_gets at 1. cbn [w_store w_resp].
  destruct (recordExists _ _ s); cbn [negb]; [|reflexivity].
  unfold st_bind at 1, on_store at 1. cbn [w_store w_resp].
  by destruct (ensureCollection _ _ _ s) as [[] s'].
Qed.

Lemma route_post r w : route "POST" r w = handlePost r w.
Proof. reflexivity. Qed.

Lemma route_put r w : route "PUT" r w = handlePut r w.
Proof. reflexivity. Qed.

Lemma route_delete r w : route "DELETE" r w = handleDelete r w.
Proof. reflexivity. Qed.

Lemma route_other method r w :
  method <> "POST" -> method <> "PUT" -> method <> "DELETE" -> route method r w = (tt, w).
Proof.
  intros H1 H2 H3. unfold route.
  rewrite (proj2 (String.eqb_neq _ _) H1), (proj2 (String.eqb_neq _ _) H2),
    (proj2 (String.eqb_neq _ _) H3). reflexivity.
Qed.

(** [handlePost] on a single object whose collection is reachable. *)
Lemma handlePost_single r d s resp :
  BulkWrite r = false -> Payload r = VObject d ->
  available s (prefixCollectionName r) = true ->
  handlePost r (mk_world s resp) =
  (tt, mk_world (append_doc s (prefixCollectionName r) d)
         (GetSuccess "success" (VObject [("insert_count", VNumber 1)])
            (WriteHeader StatusCreated resp))).
Proof.
  intros Hb Hp Ha. unfold handlePost. rewrite Hb.
  unfold insertOne. rewrite Hp. simpl.
  unfold st_bind, on_store, CreateMongoDbDoc. simpl. by rewrite Ha.
Qed.

(** [handlePost] on a single object whose collection is unreachable. *)
Lemma handlePost_single_unavailable r d s resp :
  BulkWrite r = false -> Payload r = VObject d ->
  available s (prefixCollectionName r) = false ->
  handlePost r (mk_world s resp) =
  (tt, mk_world s (GetError ("an error occured: " +:+ db_error_msg ErrUnavailable)
                     StatusInternalServerError resp)).
Proof.
  intros Hb Hp Ha. unfold handlePost. rewrite Hb.
  unfold insertOne. rewrite Hp. simpl.
  unfold st_bind, on_store, CreateMongoDbDoc. simpl. by rewrite Ha.
Qed.

(** [handlePost] on a payload of the wrong shape for its bulk flag. *)
Lemma handlePost_shape_error r s resp :
  (if BulkWrite r then as_slice (Payload r) = None else as_map (Payload r) = None) ->
  handlePost r (mk_world s resp) =
  (tt, mk_world s (GetError "an error occured: type assertion error" StatusInternalServerError resp)).
Proof.
  intros Hs. unfold handlePost, insertMany, insertOne.
  destruct (BulkWrite r); rewrite Hs; reflexivity.
Qed.

(** [handlePost] on an array with the bulk flag: nothing is written
    and the reported count is 0. *)
Lemma handlePost_bulk r vs s resp :
  BulkWrite r = true -> Payload r = VArray vs ->
  handlePost r (mk_world s resp) =
  (tt, mk_world s (GetSuccess "success" (VObject [("insert_count", VNumber 0)])
                     (WriteHeader StatusCreated resp))).
Proof. intros Hb Hp. unfold handlePost, insertMany. by rewrite Hb, Hp. Qed.

Definition valid_destination r : bool :=
  negb (String.eqb (CollectionName r) "" || String.eqb (PluginID r) "").

Lemma handlePut_invalid_destination r w :
  valid_destination r = false ->
  handlePut r w = (tt, mk_world (w_store w) (GetError "invalid data destination" StatusBadRequest (w_resp w))).
Proof. unfold valid_destination, handlePut. by destruct (_ || _). Qed.

(** [handlePut] with a valid destination: the result of the shape
    check decides the answer, and the store is never touched. *)
Lemma handlePut_valid r w :
  valid_destination r = true ->
  handlePut r w =
  (tt, mk_world (w_store w)
         (let res := if BulkWrite r then updateMany (prefixCollectionName r) (ObjectIDs r) (Payload r)
                     else (1%Z, updateOne (prefixCollectionName r) (ObjectID r) (Payload r)) in
          match res.2 with
          | Some e => GetError ("an error occured: " +:+ e) StatusInternalServerError (w_resp w)
          | None => GetSuccess "success" (VObject [("update_count", VNumber res.1)]) (w_resp w)
          end)).
Proof.
  unfold valid_destination, handlePut. destruct (_ || _); [done|]. intros _.
  by destruct (if BulkWrite r then _ else _) as [? []].
Qed.

Lemma handleDelete_eq r w :
  handleDelete r w = (tt, mk_world (w_store w) (Write (OText "hello world") (w_resp w))).
Proof. reflexivity. Qed.

Lemma handlePost_status r s :
  status (w_resp (handlePost r (mk_world s empty_response)).2) ∈
  [Some StatusCreated; Some StatusInternalServerError].
Proof.
  cbv [handlePost insertMany insertOne internal_error respond st_bind st_ret st_modify on_store].
  cbn [w_store w_resp].
  destruct (BulkWrite r); [destruct (as_slice _); simpl; set_solver|].
  destruct (as_map _) as [d|]; [|simpl; set_solver].
  destruct (CreateMongoDbDoc _ _ _) as [[e|[]] s']; simpl; set_solver.
Qed.

(** The statuses of the method handlers, method by method. *)
Definition route_statuses (method : string) : list (option Z) :=
  if String.eqb method "POST" then [Some StatusCreated; Some StatusInternalServerError]
  else if String.eqb method "PUT" then [Some StatusOK; Some StatusBadRequest; Some StatusInternalServerError]
  else if String.eqb method "DELETE" then [Some StatusOK]
  else [None].

Lemma route_status_cases method r s :
  status (w_resp (route method r (mk_world s empty_response)).2) ∈ route_statuses method.
Proof.
  unfold route, route_statuses.
  destruct (String.eqb method "POST"); [apply handlePost_status|].
  destruct (String.eqb method "PUT").
  - destruct (valid_destination r) eqn:Hv.
    + rewrite handlePut_valid by done.
      destruct (if BulkWrite r then _ else _) as [? []]; simpl; set_solver.
    + rewrite handlePut_invalid_destination by done. simpl. set_solver.
  - destruct (String.eqb method "DELETE"); [rewrite handleDelete_eq|]; simpl; set_solver.
Qed.

Lemma route_status_method method r s :
  status (w_resp (route method r (mk_world s empty_response)).2) ∈ method_statuses method.
Proof.
  pose proof (route_status_cases method r s) as Hc. revert Hc.
  unfold route_statuses, method_statuses. repeat case_match; set_solver.
Qed.

Lemma route_status method r s :
  status (w_resp (route method r (mk_world s empty_response)).2) ∈ handler_statuses.
Proof.
  pose proof (route_status_cases method r s) as Hc. revert Hc.
  unfold route_statuses, handler_statuses. repeat case_match; set_solver.
Qed.

Lemma unprocessable_not_handler_status : Some StatusUnprocessableEntity ∉ handler_statuses.
Proof. apply (bool_decide_unpack _). by vm_compute. Qed.

End WriteDataLemmas.

(** ** The physical collection of a request *)

(** C8: a plugin's physical collection is never a system collection:
    it has at least two underscores, and no name of [models.go] (nor
    "organization") has more than one. *)
Theorem prefixCollectionName_not_system r :
  is_system_collection (prefixCollectionName r) = false.
Proof.
  destruct (is_system_collection _) eqn:Hs; [|done].
  apply system_collection_underscores in Hs. unfold prefixCollectionName in Hs.
  rewrite count_char_getPrefixedCollectionName in Hs. lia.
Qed.

(** C11: when plugin and organization ids contain no underscore
    (MongoDB ObjectIDs are hexadecimal), a request's physical collection
    splits back into its plugin, organization and collection name. *)
Theorem prefixCollectionName_roundtrip r :
  count_char underscore (PluginID r) = 0 -> count_char underscore (OrganizationID r) = 0 ->
  split_prefixed (prefixCollectionName r) = Some (PluginID r, OrganizationID r, CollectionName r).
Proof.
  intros Hp Ho. unfold split_prefixed, prefixCollectionName, getPrefixedCollectionName.
  change ("_" +:+ ?x) with (String underscore x).
  rewrite split_first_app by done.
  change ("_" +:+ ?x) with (String underscore x).
  by rewrite split_first_app.
Qed.

(** C12: two requests with underscore-free plugin and organization ids
    share a physical collection only if they name the same plugin,
    organization and collection. *)
Corollary prefixCollectionName_inj r r' :
  count_char underscore (PluginID r) = 0 -> count_char underscore (OrganizationID r) = 0 ->
  count_char underscore (PluginID r') = 0 -> count_char underscore (OrganizationID r') = 0 ->
  prefixCollectionName r = prefixCollectionName r' ->
  (PluginID r, OrganizationID r, CollectionName r) = (PluginID r', OrganizationID r', CollectionName r').
Proof.
  intros Hp Ho Hp' Ho' Heq.
  apply (f_equal split_prefixed) in Heq.
  rewrite !prefixCollectionName_roundtrip in Heq by done. congruence.
Qed.

(** ** What [WriteData] answers, path by path *)

Section WriteDataTheorems.
Context {St : Type} `{DocStoreLaws St}.
Implicit Types (s : St) (r : writeDataRequest) (resp : response).

(** C1: a request naming a plugin that does not exist is answered 404
    and leaves the store exactly as it was: no registry record and no
    data write. *)
Theorem WriteData_unknown_plugin method body r s resp :
  body ≫= decode_writeDataRequest = Some r ->
  recordExists PluginCollectionName (PluginID r) s = false ->
  WriteData method body (mk_world s resp) =
  (tt, mk_world s (GetError "plugin with this id does not exist" StatusNotFound resp)).
Proof. intros Hd Hp. by rewrite (WriteData_decoded _ _ _ _ _ Hd), Hp. Qed.

(** C2: a request for an existing plugin but a missing organization is
    answered 404 and leaves the store exactly as it was. *)
Theorem WriteData_unknown_organization method body r s resp :
  body ≫= decode_writeDataRequest = Some r ->
  recordExists PluginCollectionName (PluginID r) s = true ->
  recordExists "organization" (OrganizationID r) s = false ->
  WriteData method body (mk_world s resp) =
  (tt, mk_world s (GetError "organization with this id does not exist" StatusNotFound resp)).
Proof. intros Hd Hp Ho. by rewrite (WriteData_decoded _ _ _ _ _ Hd), Hp, Ho. Qed.

(** C3: a single POST of an object, for an existing plugin and
    organization, registers the triple, appends the object to the
    physical collection, and answers 201 with [insert_count] 1.  The
    [Content-Type] header set by [GetSuccess] after [WriteHeader(201)]
    is not sent: the JSON envelope goes out with the sniffed
    [text/plain] type. *)
Theorem WriteData_post_single body r d s :
  body ≫= decode_writeDataRequest = Some r ->
  BulkWrite r = false -> Payload r = VObject d ->
  recordExists PluginCollectionName (PluginID r) s = true ->
  recordExists "organization" (OrganizationID r) s = true ->
  available s (prefixCollectionName r) = true ->
  WriteData "POST" body (mk_world s empty_response) =
  (tt, mk_world
         (append_doc (ensureCollection (PluginID r) (OrganizationID r) (CollectionName r) s).2
            (prefixCollectionName r) d)
         (mk_response (Some StatusCreated) (Some sniffed_content_type)
            [OSuccess "success" (VObject [("insert_count", VNumber 1)])])).
Proof.
  intros Hd Hb Hpl Hp Ho Ha. rewrite (WriteData_decoded _ _ _ _ _ Hd), Hp, Ho. cbn [negb].
  rewrite route_post, (handlePost_single r d); [reflexivity | done | done |].
  by rewrite available_ensureCollection.
Qed.

(** C4: a POST whose payload has the wrong shape for its bulk flag (an
    object with [bulk_write], anything but an object without it) is
    answered 500 "type assertion error" and writes no data; the
    registry record written before the shape check stays. *)
Theorem WriteData_post_shape_error body r s resp :
  body ≫= decode_writeDataRequest = Some r ->
  (if BulkWrite r then as_slice (Payload r) = None else as_map (Payload r) = None) ->
  recordExists PluginCollectionName (PluginID r) s = true ->
  recordExists "organization" (OrganizationID r) s = true ->
  WriteData "POST" body (mk_world s resp) =
  (tt, mk_world (ensureCollection (PluginID r) (OrganizationID r) (CollectionName r) s).2
         (GetError "an error occured: type assertion error" StatusInternalServerError resp)).
Proof.
  intros Hd Hs Hp Ho. rewrite (WriteData_decoded _ _ _ _ _ Hd), Hp, Ho. cbn [negb].
  by rewrite route_post, handlePost_shape_error.
Qed.

(** C5: a PUT with an empty collection name or plugin id is answered
    400 "invalid data destination" with no data write, but only after
    the triple, empty name included, has been registered. *)
Theorem WriteData_put_invalid_destination body r s resp :
  body ≫= decode_writeDataRequest = Some r ->
  (CollectionName r = "" \/ PluginID r = "") ->
  recordExists PluginCollectionName (PluginID r) s = true ->
  recordExists "organization" (OrganizationID r) s = true ->
  WriteData "PUT" body (mk_world s resp) =
  (tt, mk_world (ensureCollection (PluginID r) (OrganizationID r) (CollectionName r) s).2
         (GetError "invalid data destination" StatusBadRequest resp)).
Proof.
  intros Hd Hdest Hp Ho. rewrite (WriteData_decoded _ _ _ _ _ Hd), Hp, Ho. cbn [negb].
  rewrite route_put, handlePut_invalid_destination; [done|].
  unfold valid_destination. by destruct Hdest as [-> | ->]; rewrite ?orb_true_r.
Qed.

(** C6: a failing registry write is swallowed: with the registry
    collection unreachable, a single POST still appends the object and
    answers 201, and the registry is left as it was. *)
Theorem WriteData_post_registry_down body r d s :
  body ≫= decode_writeDataRequest = Some r ->
  BulkWrite r = false -> Payload r = VObject d ->
  recordExists PluginCollectionName (PluginID r) s = true ->
  recordExists "organization" (OrganizationID r) s = true ->
  available s PluginCollectionsCollectionName = false ->
  available s (prefixCollectionName r) = true ->
  WriteData "POST" body (mk_world s empty_response) =
  (tt, mk_world (append_doc s (prefixCollectionName r) d)
         (mk_response (Some StatusCreated) (Some sniffed_content_type)
            [OSuccess "success" (VObject [("insert_count", VNumber 1)])])).
Proof.
  intros Hd Hb Hpl Hp Ho Hreg Ha. rewrite (WriteData_decoded _ _ _ _ _ Hd), Hp, Ho. cbn [negb].
  rewrite ensureCollection_state, Hreg. cbn [andb snd].
  by rewrite route_post, (handlePost_single r d).
Qed.

(** C23: a bulk POST of an array of any length writes nothing to the
    physical collection and answers 201 with [insert_count] 0. *)
Theorem WriteData_post_bulk_count body r vs s :
  body ≫= decode_writeDataRequest = Some r ->
  BulkWrite r = true -> Payload r = VArray vs ->
  recordExists PluginCollectionName (PluginID r) s = true ->
  recordExists "organization" (OrganizationID r) s = true ->
  WriteData "POST" body (mk_world s empty_response) =
  (tt, mk_world (ensureCollection (PluginID r) (OrganizationID r) (CollectionName r) s).2
         (mk_response (Some StatusCreated) (Some sniffed_content_type)
            [OSuccess "success" (VObject [("insert_count", VNumber 0)])])).
Proof.
  intros Hd Hb Hpl Hp Ho. rewrite (WriteData_decoded _ _ _ _ _ Hd), Hp, Ho. cbn [negb].
  by rewrite route_post, (handlePost_bulk r vs).
Qed.

(** C24: a single PUT of an object to a valid destination answers 200
    with [update_count] 1 although no document is changed. *)
Theorem WriteData_put_single body r d s :
  body ≫= decode_writeDataRequest = Some r ->
  valid_destination r = true ->
  BulkWrite r = false -> Payload r = VObject d ->
  recordExists PluginCollectionName (PluginID r) s = true ->
  recordExists "organization" (OrganizationID r) s = true ->
  WriteData "PUT" body (mk_world s empty_response) =
  (tt, mk_world (ensureCollection (PluginID r) (OrganizationID r) (CollectionName r) s).2
         (mk_response (Some StatusOK) (Some "application/json")
            [OSuccess "success" (VObject [("update_count", VNumber 1)])])).
Proof.
  intros Hd Hv Hb Hpl Hp Ho. rewrite (WriteData_decoded _ _ _ _ _ Hd), Hp, Ho. cbn [negb].
  rewrite route_put, handlePut_valid by done. cbn [w_store w_resp].
  unfold updateOne. by rewrite Hb, Hpl.
Qed.

(** C25: a bulk PUT with an array payload answers 200 with
    [update_count] 0 and changes nothing, whatever the number of ids
    (no check that ids and payload have the same length). *)
Theorem WriteData_put_bulk body r vs s :
  body ≫= decode_writeDataRequest = Some r ->
  valid_destination r = true ->
  BulkWrite r = true -> Payload r = VArray vs ->
  recordExists PluginCollectionName (PluginID r) s = true ->
  recordExists "organization" (OrganizationID r) s = true ->
  WriteData "PUT" body (mk_world s empty_response) =
  (tt, mk_world (ensureCollection (PluginID r) (OrganizationID r) (CollectionName r) s).2
         (mk_response (Some StatusOK) (Some "application/json")
            [OSuccess "success" (VObject [("update_count", VNumber 0)])])).
Proof.
  intros Hd Hv Hb Hpl Hp Ho. rewrite (WriteData_decoded _ _ _ _ _ Hd), Hp, Ho. cbn [negb].
  rewrite route_put, handlePut_valid by done. cbn [w_store w_resp].
  unfold updateMany. by rewrite Hb, Hpl.
Qed.

(** C26: DELETE deletes nothing: after the checks and the registration
    it answers 200 with the text "hello world" (sniffed as plain text). *)
Theorem WriteData_delete_stub body r s :
  body ≫= decode_writeDataRequest = Some r ->
  recordExists PluginCollectionName (PluginID r) s = true ->
  recordExists "organization" (OrganizationID r) s = true ->
  WriteData "DELETE" body (mk_world s empty_response) =
  (tt, mk_world (ensureCollection (PluginID r) (OrganizationID r) (CollectionName r) s).2
         (mk_response (Some StatusOK) (Some sniffed_content_type) [OText "hello world"])).
Proof.
  intros Hd Hp Ho. rewrite (WriteData_decoded _ _ _ _ _ Hd), Hp, Ho. cbn [negb].
  by rewrite route_delete, handleDelete_eq.
Qed.

(** C27: any other method writes no response at all (the client gets
    an empty 200), after the registry has been written. *)
Theorem WriteData_other_method method body r s resp :
  method <> "POST" -> method <> "PUT" -> method <> "DELETE" ->
  body ≫= decode_writeDataRequest = Some r ->
  recordExists PluginCollectionName (PluginID r) s = true ->
  recordExists "organization" (OrganizationID r) s = true ->
  WriteData method body (mk_world s resp) =
  (tt, mk_world (ensureCollection (PluginID r) (OrganizationID r) (CollectionName r) s).2 resp).
Proof.
  intros H1 H2 H3 Hd Hp Ho. rewrite (WriteData_decoded _ _ _ _ _ Hd), Hp, Ho. cbn [negb].
  by rewrite route_other.
Qed.

(** C7: the statuses each method can answer a fresh writer with: a
    POST 201, 404, 422 or 500; a PUT 200, 400, 404, 422 or 500; a DELETE
    200, 404 or 422; any other method 404, 422 or no status at all. *)
Theorem WriteData_status_by_method method body s :
  status (w_resp (WriteData method body (mk_world s empty_response)).2) ∈ method_statuses method.
Proof.
  assert (Some StatusNotFound ∈ method_statuses method /\
          Some StatusUnprocessableEntity ∈ method_statuses method) as [H404 H422].
  { unfold method_statuses. repeat case_match; set_solver. }
  destruct (body ≫= decode_writeDataRequest) as [r|] eqn:Hd;
    [rewrite (WriteData_decoded _ _ _ _ _ Hd) | by rewrite WriteData_decode_error].
  destruct (recordExists _ _ s); [|done].
  destruct (recordExists _ _ s); [|done].
  apply route_status_method.
Qed.

(** C9: type.  On a fresh writer, the endpoint answers 422 exactly
    when the body is not JSON or not of the request's type (some key
    naming a field holds a value of another JSON type): a well-typed
    body is never refused as malformed, whatever the store and method. *)
Theorem WriteData_422_iff method body s :
  status (w_resp (WriteData method body (mk_world s empty_response)).2) =
    Some StatusUnprocessableEntity <->
  ~ (exists v, body = Some v /\ well_typed_body v = true).
Proof.
  rewrite body_decodes_iff.
  destruct (body ≫= decode_writeDataRequest) as [r|] eqn:Hd.
  - rewrite (WriteData_decoded _ _ _ _ _ Hd). split; [|intros Hn; contradict Hn; by eexists].
    destruct (recordExists _ _ s); [|discriminate]. destruct (recordExists _ _ s); [|discriminate].
    intros Hs. destruct unprocessable_not_handler_status.
    rewrite <- Hs. apply route_status.
  - rewrite WriteData_decode_error by done. split; [intros _ [? ?]; done | reflexivity].
Qed.

End WriteDataTheorems.

(** ** Concrete runs *)

Import MemStore.

Module Scenario.
(** The store of the specification's scenario: plugin "p1" and
    organization "o1" exist, nothing is registered yet. *)
Definition store0 : mem :=
  of_list [(PluginCollectionName, [[("_id", VString "p1")]]);
           ("organization", [[("_id", VString "o1")]])].

Definition note : document := [("text", VString "hi")].

Definition body (plugin org coll : string) (bulk : bool) (payload : value) : value :=
  VObject [("plugin_id", VString plugin); ("organization_id", VString org);
           ("collection_name", VString coll); ("bulk_write", VBool bulk);
           ("payload", payload)].

Definition world0 : world mem := mk_world store0 empty_response.

End Scenario.

Import Scenario.

Lemma WriteData_unknown_plugin_witness :
  WriteData "POST" (Some (body "p9" "o1" "notes" false (VObject note))) world0 =
  (tt, mk_world store0 (GetError "plugin with this id does not exist" StatusNotFound empty_response)).
Proof. eapply WriteData_unknown_plugin; vm_compute; reflexivity. Defined.

Lemma WriteData_unknown_organization_witness :
  WriteData "POST" (Some (body "p1" "o9" "notes" false (VObject note))) world0 =
  (tt, mk_world store0 (GetError "organization with this id does not exist" StatusNotFound empty_response)).
Proof. eapply WriteData_unknown_organization; vm_compute; reflexivity. Defined.

Lemma WriteData_post_single_witness :
  WriteData "POST" (Some (body "p1" "o1" "notes" false (VObject note))) world0 =
  (tt, mk_world
         (append_doc (ensureCollection "p1" "o1" "notes" store0).2 "p1_o1_notes" note)
         (mk_response (Some StatusCreated) (Some sniffed_content_type)
            [OSuccess "success" (VObject [("insert_count", VNumber 1)])])).
Proof.
  apply (WriteData_post_single _ (mk_request "p1" "notes" "o1" false "" [] (VObject note)));
    vm_compute; reflexivity.
Defined.

Definition req (coll : string) (bulk : bool) (payload : value) : writeDataRequest :=
  mk_request "p1" coll "o1" bulk "" [] payload.

Lemma WriteData_post_shape_error_witness :
  WriteData "POST" (Some (body "p1" "o1" "notes" true (VObject note))) world0 =
  (tt, mk_world (ensureCollection "p1" "o1" "notes" store0).2
         (GetError "an error occured: type assertion error" StatusInternalServerError empty_response)).
Proof.
  apply (WriteData_post_shape_error _ (req "notes" true (VObject note))); vm_compute; reflexivity.
Defined.

Lemma WriteData_put_invalid_destination_witness :
  WriteData "PUT" (Some (body "p1" "o1" "" false (VObject note))) world0 =
  (tt, mk_world (ensureCollection "p1" "o1" "" store0).2
         (GetError "invalid data destination" StatusBadRequest empty_response)).
Proof.
  apply (WriteData_put_invalid_destination _ (req "" false (VObject note)));
    [vm_compute; reflexivity | left; reflexivity | vm_compute; reflexivity..].
Defined.

(** The scenario store with its registry collection unreachable. *)
Definition store_registry_down : mem :=
  mk_mem (mem_colls store0) {[PluginCollectionsCollectionName]}.

Lemma WriteData_post_registry_down_witness :
  WriteData "POST" (Some (body "p1" "o1" "notes" false (VObject note)))
    (mk_world store_registry_down empty_response) =
  (tt, mk_world (append_doc store_registry_down "p1_o1_notes" note)
         (mk_response (Some StatusCreated) (Some sniffed_content_type)
            [OSuccess "success" (VObject [("insert_count", VNumber 1)])])).
Proof.
  apply (WriteData_post_registry_down _ (req "notes" false (VObject note))); vm_compute; reflexivity.
Defined.

Lemma WriteData_post_bulk_count_witness :
  WriteData "POST" (Some (body "p1" "o1" "notes" true (VArray [VObject note; VObject note]))) world0 =
  (tt, mk_world (ensureCollection "p1" "o1" "notes" store0).2
         (mk_response (Some StatusCreated) (Some sniffed_content_type)
            [OSuccess "success" (VObject [("insert_count", VNumber 0)])])).
Proof.
  apply (WriteData_post_bulk_count _ (req "notes" true (VArray [VObject note; VObject note]))
           [VObject note; VObject note]); vm_compute; reflexivity.
Defined.

Lemma WriteData_put_single_witness :
  WriteData "PUT" (Some (body "p1" "o1" "notes" false (VObject note))) world0 =
  (tt, mk_world (ensureCollection "p1" "o1" "notes" store0).2
         (mk_response (Some StatusOK) (Some "application/json")
            [OSuccess "success" (VObject [("update_count", VNumber 1)])])).
Proof.
  apply (WriteData_put_single _ (req "notes" false (VObject note)) note); vm_compute; reflexivity.
Defined.

(** The specification's scenario: three ids, a two-element payload. *)
Definition bulk_put_body : value :=
  VObject [("plugin_id", VString "p1"); ("organization_id", VString "o1");
           ("collection_name", VString "notes"); ("bulk_write", VBool true);
           ("object_ids", VArray [VString "a"; VString "b"; VString "c"]);
           ("payload", VArray [VObject note; VObject note])].

Lemma WriteData_put_bulk_witness :
  WriteData "PUT" (Some bulk_put_body) world0 =
  (tt, mk_world (ensureCollection "p1" "o1" "notes" store0).2
         (mk_response (Some StatusOK) (Some "application/json")
            [OSuccess "success" (VObject [("update_count", VNumber 0)])])).
Proof.
  apply (WriteData_put_bulk _ (mk_request "p1" "notes" "o1" true "" ["a"; "b"; "c"]
                                 (VArray [VObject note; VObject note]))
           [VObject note; VObject note]); vm_compute; reflexivity.
Defined.

Lemma WriteData_delete_stub_witness :
  WriteData "DELETE" (Some (body "p1" "o1" "notes" false VNull)) world0 =
  (tt, mk_world (ensureCollection "p1" "o1" "notes" store0).2
         (mk_response (Some StatusOK) (Some sniffed_content_type) [OText "hello world"])).
Proof.
  apply (WriteData_delete_stub _ (req "notes" false VNull)); vm_compute; reflexivity.
Defined.

Lemma WriteData_other_method_witness :
  WriteData "PATCH" (Some (body "p1" "o1" "notes" false (VObject note))) world0 =
  (tt, mk_world (ensureCollection "p1" "o1" "notes" store0).2 empty_response).
Proof.
  apply (WriteData_other_method _ _ (req "notes" false (VObject note)));
    [discriminate | discriminate | discriminate | vm_compute; reflexivity..].
Defined.

Lemma prefixCollectionName_roundtrip_witness :
  split_prefixed (prefixCollectionName (mk_request "60e6f2a1" "notes_v2" "60e6f2b7" false "" [] VNull))
  = Some ("60e6f2a1", "60e6f2b7", "notes_v2").
Proof. apply prefixCollectionName_roundtrip; vm_compute; reflexivity. Defined.

Lemma prefixCollectionName_inj_witness :
  prefixCollectionName (req "notes" false VNull) <>
  prefixCollectionName (mk_request "p1" "notes" "o2" false "" [] VNull).
Proof.
  intros Heq. apply prefixCollectionName_inj in Heq; [discriminate | vm_compute; reflexivity..].
Defined.

Lemma WriteData_status_by_method_witness :
  status (w_resp (WriteData "PUT" (Some bulk_put_body) world0).2) ∈ method_statuses "PUT".
Proof. apply (WriteData_status_by_method "PUT" (Some bulk_put_body) store0). Defined.

(** A body whose plugin id is a number. *)
Definition mistyped_body : value := VObject [("plugin_id", VNumber 1)].

Lemma WriteData_422_iff_witness :
  status (w_resp (WriteData "POST" (Some mistyped_body) (mk_world store0 empty_response)).2) =
    Some StatusUnprocessableEntity <->
  ~ (exists v, Some mistyped_body = Some v /\ well_typed_body v = true).
Proof. apply (WriteData_422_iff "POST" (Some mistyped_body) store0). Defined.
