(* ===== verification/Invariants.v ===== *)
(** * Invariants of the write path over sequences of requests

    [WriteData] touches at most two collections: the registry and the
    request's physical collection.  From that frame property this file
    proves that the registry stays sound (every registered triple names
    an existing plugin and organization) and duplicate-free over any
    sequence of requests handled one after the other ([reachable]). *)

From S2P Require Import Prelude Models Json Request Http Store Registry WriteData.

Section Frame.
Context {St : Type} `{DocStoreLaws St}.
Implicit Types (s : St) (r : writeDataRequest) (w : world St).

Lemma recordExists_agree c s s' coll id :
  agree_except c s s' -> coll <> c -> recordExists coll id s' = recordExists coll id s.
Proof.
  intros Hag Hne. unfold recordExists, GetMongoDbDoc.
  destruct (Hag coll Hne) as [-> ->]. done.
Qed.

Lemma registry_docs_agree c s s' :
  agree_except c s s' -> PluginCollectionsCollectionName <> c -> registry_docs s' = registry_docs s.
Proof. intros Hag Hne. unfold registry_docs. by destruct (Hag _ Hne) as [-> _]. Qed.

(** No physical collection is a system collection (the registry, the
    plugins, the organizations). *)
Lemma prefixed_ne_system p o c coll :
  is_system_collection coll = true -> getPrefixedCollectionName p o c <> coll.
Proof.
  intros Hs <-. apply system_collection_underscores in Hs.
  rewrite count_char_getPrefixedCollectionName in Hs. lia.
Qed.

Lemma handlePost_agree r w :
  agree_except (prefixCollectionName r) (w_store w) (w_store (handlePost r w).2).
Proof.
  destruct w as [s resp].
  cbv [handlePost insertMany insertOne internal_error respond st_bind st_ret st_modify on_store].
  cbn [w_store w_resp].
  destruct (BulkWrite r); [by destruct (as_slice _)|].
  destruct (as_map _) as [d|]; [|done].
  pose proof (agree_except_CreateMongoDbDoc (prefixCollectionName r) d s) as Hag.
  destruct (CreateMongoDbDoc _ _ _) as [[e|[]] s']; by simpl in *.
Qed.

Lemma route_agree method r w :
  agree_except (prefixCollectionName r) (w_store w) (w_store (route method r w).2).
Proof.
  unfold route.
  destruct (String.eqb method "POST"); [apply handlePost_agree|].
  destruct (String.eqb method "PUT").
  - destruct (valid_destination r) eqn:Hv;
      [rewrite handlePut_valid | rewrite handlePut_invalid_destination]; done.
  - destruct (String.eqb method "DELETE"); [rewrite handleDelete_eq|]; done.
Qed.

(** The registry guard appends at most one record, to the registry. *)
Lemma ensureCollection_appends p o c s coll :
  appends_at_most (if bool_decide (coll = PluginCollectionsCollectionName) then 1 else 0) coll s
    (ensureCollection p o c s).2.
Proof.
  rewrite ensureCollection_state. simpl. destruct (_ && _); [|by apply appends_at_most_eq].
  case_bool_decide as Hc.
  - subst. exists [doc_of_filter (registry_filter p o c)]. by rewrite coll_docs_append_same.
  - apply appends_at_most_eq, coll_docs_append_other. congruence.
Qed.

Lemma handlePost_appends r w coll :
  appends_at_most (if bool_decide (coll = prefixCollectionName r) then 1 else 0) coll
    (w_store w) (w_store (handlePost r w).2).
Proof.
  destruct w as [s resp].
  cbv [handlePost insertMany insertOne internal_error respond st_bind st_ret st_modify on_store].
  cbn [w_store w_resp].
  destruct (BulkWrite r); [destruct (as_slice _); by apply appends_at_most_eq|].
  destruct (as_map _) as [d|]; [|by apply appends_at_most_eq].
  pose proof (CreateMongoDbDoc_appends (prefixCollectionName r) coll d s) as Hap.
  destruct (CreateMongoDbDoc _ _ _) as [[e|[]] s']; by simpl in *.
Qed.

(** The method handlers write at most one document, into the request's
    physical collection. *)
Lemma route_appends method r w coll :
  appends_at_most (if bool_decide (coll = prefixCollectionName r) then 1 else 0) coll
    (w_store w) (w_store (route method r w).2).
Proof.
  unfold route. destruct (String.eqb method "POST"); [apply handlePost_appends|].
  apply appends_at_most_eq. destruct (String.eqb method "PUT").
  - destruct (valid_destination r) eqn:Hv;
      [rewrite handlePut_valid | rewrite handlePut_invalid_destination]; done.
  - destruct (String.eqb method "DELETE"); [rewrite handleDelete_eq|]; done.
Qed.

End Frame.

Section Pipeline.
Context {St : Type} `{DocStoreLaws St}.
Implicit Types (s : St) (r : writeDataRequest) (w : world St).

(** The store after one request: unchanged, or the registry guard
    followed by writes into the request's physical collection only. *)
Lemma WriteData_store method body w :
  w_store (WriteData method body w).2 = w_store w \/
  exists r, body ≫= decode_writeDataRequest = Some r /\
    recordExists PluginCollectionName (PluginID r) (w_store w) = true /\
    recordExists "organization" (OrganizationID r) (w_store w) = true /\
    agree_except (prefixCollectionName r)
      (ensureCollection (PluginID r) (OrganizationID r) (CollectionName r) (w_store w)).2
      (w_store (WriteData method body w).2).
Proof.
  destruct w as [s resp]. destruct (body ≫= decode_writeDataRequest) as [r|] eqn:Hd.
  - rewrite (WriteData_decoded _ _ _ _ _ Hd). cbn [w_store].
    destruct (recordExists _ (PluginID r) s) eqn:Hp; [|by left].
    destruct (recordExists _ (OrganizationID r) s) eqn:Ho; [|by left].
    right. exists r. split_and!; [done..|]. apply (route_agree method r (mk_world _ resp)).
  - left. by rewrite WriteData_decode_error.
Qed.

(** A system collection other than the registry is never touched. *)
Lemma WriteData_frame method body w coll :
  is_system_collection coll = true -> coll <> PluginCollectionsCollectionName ->
  coll_docs (w_store (WriteData method body w).2) coll = coll_docs (w_store w) coll /\
  available (w_store (WriteData method body w).2) coll = available (w_store w) coll.
Proof.
  intros Hsys Hreg.
  destruct (WriteData_store method body w) as [-> | (r & _ & _ & _ & Hag)]; [done|].
  destruct (Hag coll) as [-> ->]; [by apply not_eq_sym, prefixed_ne_system|].
  by apply agree_except_ensureCollection.
Qed.

Lemma WriteData_recordExists method body w coll id :
  is_system_collection coll = true -> coll <> PluginCollectionsCollectionName ->
  recordExists coll id (w_store (WriteData method body w).2) = recordExists coll id (w_store w).
Proof.
  intros Hsys Hreg. unfold recordExists, GetMongoDbDoc.
  by destruct (WriteData_frame method body w coll Hsys Hreg) as [-> ->].
Qed.

(** The registry after one request: the old one, plus the request's
    triple when its plugin and organization exist. *)
Lemma WriteData_registry method body w :
  registry_docs (w_store (WriteData method body w).2) = registry_docs (w_store w) \/
  exists r, body ≫= decode_writeDataRequest = Some r /\
    recordExists PluginCollectionName (PluginID r) (w_store w) = true /\
    recordExists "organization" (OrganizationID r) (w_store w) = true /\
    registry_docs (w_store (WriteData method body w).2) =
    registry_docs (ensureCollection (PluginID r) (OrganizationID r) (CollectionName r) (w_store w)).2.
Proof.
  destruct (WriteData_store method body w) as [-> | (r & Hd & Hp & Ho & Hag)]; [by left|].
  right. exists r. split_and!; [done..|].
  apply (registry_docs_agree _ _ _ Hag). by apply not_eq_sym, prefixed_ne_system.
Qed.

(** C10: bounds.  One request changes the store only by appending: at
    most one record to the registry and at most one document to a single
    other collection (its physical collection); no document is changed
    or removed and no other collection is touched. *)
Theorem WriteData_appends_at_most_two method body w :
  exists target, target <> PluginCollectionsCollectionName /\
  forall coll, appends_at_most
    ((if bool_decide (coll = PluginCollectionsCollectionName) then 1 else 0) +
     (if bool_decide (coll = target) then 1 else 0))
    coll (w_store w) (w_store (WriteData method body w).2).
Proof.
  destruct w as [s resp]. destruct (body ≫= decode_writeDataRequest) as [r|] eqn:Hd.
  - exists (prefixCollectionName r). split; [by apply prefixed_ne_system|]. intros coll.
    rewrite (WriteData_decoded _ _ _ _ _ Hd). cbn [w_store].
    destruct (recordExists _ _ s); [|by apply appends_at_most_eq].
    destruct (recordExists _ _ s); [|by apply appends_at_most_eq].
    eapply appends_at_most_trans;
      [apply ensureCollection_appends | apply (route_appends method r (mk_world _ resp))].
  - exists "". split; [done|]. intros coll.
    rewrite WriteData_decode_error by done. by apply appends_at_most_eq.
Qed.

End Pipeline.

(** ** Sequences of requests *)

Section Reachable.
Context {St : Type} `{DocStoreLaws St}.
Implicit Types (s : St).

(** The stores reachable from [s0] by handling requests one after the
    other, each with any method, body and response writer. *)
Inductive reachable (s0 : St) : St -> Prop :=
| reachable_init : reachable s0 s0
| reachable_step s method body resp :
    reachable s0 s -> reachable s0 (w_store (WriteData method body (mk_world s resp)).2).

(** Every registered triple names an existing plugin and organization. *)
Definition registry_sound s : Prop :=
  forall p o c, (p, o, c) ∈ registry_of s ->
    recordExists PluginCollectionName p s = true /\ recordExists "organization" o s = true.

Lemma WriteData_registry_sound method body w :
  registry_sound (w_store w) -> registry_sound (w_store (WriteData method body w).2).
Proof.
  intros Hs p o c Hin.
  rewrite !WriteData_recordExists by (vm_compute; congruence).
  unfold registry_of in Hin.
  destruct (WriteData_registry method body w) as [Heq | (r & _ & Hp & Ho & Heq)];
    rewrite Heq in Hin; [by apply (Hs p o c)|].
  apply registry_of_ensureCollection_subset, elem_of_union in Hin as [Hin|Hin].
  - apply elem_of_singleton in Hin. simplify_eq. done.
  - by apply (Hs p o c).
Qed.

(** C17: over any sequence of requests, the collections of
    [models.go] other than the registry (users, plugins, messages, ...)
    and the organization collection are never modified. *)
Theorem reachable_system_collections_untouched s0 s coll :
  reachable s0 s -> is_system_collection coll = true -> coll <> PluginCollectionsCollectionName ->
  coll_docs s coll = coll_docs s0 coll.
Proof.
  intros Hr Hsys Hreg. induction Hr as [|s method body resp Hr IH]; [done|].
  rewrite <- IH. apply (WriteData_frame method body (mk_world s resp)); done.
Qed.

(** C15: invariant.  If every registry record of the initial store
    names an existing plugin and organization, so does every record of
    any store reached by a sequence of requests. *)
Theorem reachable_registry_sound s0 s :
  registry_sound s0 -> reachable s0 s -> registry_sound s.
Proof.
  intros Hinit Hr. induction Hr as [|s method body resp Hr IH]; [done|].
  by apply (WriteData_registry_sound method body (mk_world s resp)).
Qed.

(** C16: invariant.  Requests handled one after the other never record
    a triple twice in the registry. *)
Theorem reachable_registry_NoDup s0 s :
  NoDup (registry_docs s0) -> reachable s0 s -> NoDup (registry_docs s).
Proof.
  intros Hinit Hr. induction Hr as [|s method body resp Hr IH]; [done|].
  destruct (WriteData_registry method body (mk_world s resp)) as [-> | (r & _ & _ & _ & ->)];
    [done|].
  by apply ensureCollection_NoDup.
Qed.

End Reachable.

(** ** A concrete sequence: the same first POST twice, then a PUT *)

Import MemStore Scenario.

Definition store_after_three : mem :=
  let req_body := Some (body "p1" "o1" "notes" false (VObject note)) in
  let s1 := w_store (WriteData "POST" req_body (mk_world store0 empty_response)).2 in
  let s2 := w_store (WriteData "POST" req_body (mk_world s1 empty_response)).2 in
  w_store (WriteData "PUT" req_body (mk_world s2 empty_response)).2.

Lemma reachable_system_collections_untouched_witness :
  coll_docs store_after_three PluginCollectionName = coll_docs store0 PluginCollectionName.
Proof.
  apply (reachable_system_collections_untouched store0); [do 3 apply reachable_step; apply reachable_init | vm_compute; reflexivity | discriminate].
Defined.

Lemma reachable_registry_sound_witness : registry_sound store_after_three.
Proof.
  apply (reachable_registry_sound store0).
  - intros p o c Hin. vm_compute in Hin. set_solver.
  - do 3 apply reachable_step. apply reachable_init.
Defined.

Lemma reachable_registry_NoDup_witness : NoDup (registry_docs store_after_three).
Proof.
  apply (reachable_registry_NoDup store0).
  - vm_compute. constructor.
  - do 3 apply reachable_step. apply reachable_init.
Defined.

Lemma WriteData_appends_at_most_two_witness :
  exists target, target <> PluginCollectionsCollectionName /\
  forall coll, appends_at_most
    ((if bool_decide (coll = PluginCollectionsCollectionName) then 1 else 0) +
     (if bool_decide (coll = target) then 1 else 0))
    coll store0 (w_store (WriteData "POST" (Some (body "p1" "o1" "notes" false (VObject note)))
                           (mk_world store0 empty_response)).2).
Proof. apply (WriteData_appends_at_most_two "POST" _ (mk_world store0 empty_response)). Defined.
