(* ===== verification/Concurrency.v ===== *)
(** * Concurrent requests and the registry guard

    Each request is handled on its own goroutine, and the guard of
    [WriteData] (lines 43-45) is two separate store round trips: the
    read [pluginHasCollection], then, if it answered false, the write
    [createPluginCollectionRecord].  A [guard_thread] is one request at
    one of these points ([AtCheck], [AtCreate], [Finished]); a [config]
    is the store with the threads in flight; [sched_step i] runs one
    atomic store call of thread [i], and [gstep] is the interleaving
    step relation.  Two threads interleaved can register the same
    triple twice; in every interleaving the number of records is bounded
    by the requests in flight, and every finished request leaves its
    triple registered. *)

From S2P Require Import Prelude Models Json Store Registry.

Inductive guard_pc : Type := AtCheck | AtCreate | Finished.

Record guard_thread : Type := mk_thread {
  th_plugin : string;
  th_org : string;
  th_coll : string;
  th_pc : guard_pc
}.

Definition th_triple (t : guard_thread) : string * string * string :=
  (th_plugin t, th_org t, th_coll t).

Definition set_pc (t : guard_thread) (pc : guard_pc) : guard_thread :=
  mk_thread (th_plugin t) (th_org t) (th_coll t) pc.

Definition start_thread (p o c : string) : guard_thread := mk_thread p o c AtCheck.

Definition is_finished (t : guard_thread) : bool :=
  match th_pc t with Finished => true | _ => false end.

Section Interleaving.
Context {St : Type} `{DocStoreLaws St}.

Definition config : Type := (St * list guard_thread)%type.

(** One store call of one thread. *)
Definition thread_step (t : guard_thread) (s : St) : option (guard_thread * St) :=
  match th_pc t with
  | AtCheck =>
      Some (set_pc t (if pluginHasCollection (th_plugin t) (th_org t) (th_coll t) s
                      then Finished else AtCreate), s)
  | AtCreate =>
      Some (set_pc t Finished, (createPluginCollectionRecord (th_plugin t) (th_org t) (th_coll t) s).2)
  | Finished => None
  end.

Definition sched_step (i : nat) (c : config) : option config :=
  match c.2 !! i with
  | Some t =>
      match thread_step t c.1 with
      | Some (t', s') => Some (s', <[i := t']> c.2)
      | None => None
      end
  | None => None
  end.

(** A schedule: thread indices in the order the scheduler runs them;
    picking a finished or absent thread does nothing. *)
Fixpoint run_schedule (sch : list nat) (c : config) : config :=
  match sch with
  | [] => c
  | i :: sch' => run_schedule sch' (default c (sched_step i c))
  end.

Inductive gstep : relation config :=
| gstep_intro i c c' : sched_step i c = Some c' -> gstep c c'.

(** The requests of the triple that have not finished their guard. *)
Definition pending (t : string * string * string) (ts : list guard_thread) : nat :=
  count_if (fun th => bool_decide (th_triple th = t) && negb (is_finished th)) ts.

(** Every finished request has its triple registered. *)
Definition registered_when_finished (c : config) : Prop :=
  forall th, th ∈ c.2 -> th_pc th = Finished ->
    1 <= record_count (th_plugin th) (th_org th) (th_coll th) c.1.

End Interleaving.

Arguments config St : clear implicits.

Section InterleavingLemmas.
Context {St : Type} `{DocStoreLaws St}.
Implicit Types (s : St) (cf : config St).

Lemma record_count_create p o c p' o' c' s :
  record_count p' o' c' (createPluginCollectionRecord p o c s).2 =
  record_count p' o' c' s +
  (if available s PluginCollectionsCollectionName && bool_decide ((p, o, c) = (p', o', c'))
   then 1 else 0).
Proof.
  unfold createPluginCollectionRecord, CreateMongoDbDoc.
  destruct (available s _) eqn:Ha; cbn [snd andb]; [|lia].
  unfold record_count. rewrite coll_docs_append_same, count_if_app, count_if_singleton.
  by rewrite matches_registry_record_iff.
Qed.

Lemma available_createPluginCollectionRecord p o c s coll :
  available (createPluginCollectionRecord p o c s).2 coll = available s coll.
Proof. apply available_CreateMongoDbDoc. Qed.

Lemma available_thread_step th th' s s' coll :
  thread_step th s = Some (th', s') -> available s' coll = available s coll.
Proof.
  unfold thread_step. destruct (th_pc th); intros; simplify_eq; try done.
  apply available_createPluginCollectionRecord.
Qed.

(** Every schedule is a sequence of interleaving steps. *)
Lemma run_schedule_rtc sch cf : rtc gstep cf (run_schedule sch cf).
Proof.
  revert cf. induction sch as [|i sch IH]; intros cf; simpl; [done|].
  destruct (sched_step i cf) as [cf'|] eqn:Hs; simpl; [|apply IH].
  eapply rtc_l; [by econstructor | apply IH].
Qed.

Lemma gstep_potential p o cc cf cf' :
  gstep cf cf' ->
  record_count p o cc cf'.1 + pending (p, o, cc) cf'.2 <= record_count p o cc cf.1 + pending (p, o, cc) cf.2.
Proof.
  intros [i [s ts] c'' Hs]. unfold sched_step in Hs. simpl in Hs.
  destruct (ts !! i) as [th|] eqn:Hl; [|done].
  pose proof (fun th' => count_if_insert
    (fun th => bool_decide (th_triple th = (p, o, cc)) && negb (is_finished th)) ts i th' th Hl) as Hc.
  unfold pending. destruct th as [tp to tc [| |]]; unfold thread_step in Hs; simpl in Hs; simplify_eq/=.
  - specialize (Hc (set_pc (mk_thread tp to tc AtCheck)
                      (if pluginHasCollection tp to tc s then Finished else AtCreate))).
    unfold set_pc, th_triple, is_finished in *. simpl in *.
    destruct (pluginHasCollection tp to tc s); simpl in *; case_bool_decide; simpl in *; lia.
  - specialize (Hc (set_pc (mk_thread tp to tc AtCreate) Finished)).
    unfold set_pc, th_triple, is_finished in *. simpl in *.
    rewrite record_count_create.
    destruct (available s _); simpl in *; case_bool_decide; simpl in *; lia.
Qed.

(** The counts of registry records never decrease. *)
Lemma gstep_record_count_mono p o cc cf cf' :
  gstep cf cf' -> record_count p o cc cf.1 <= record_count p o cc cf'.1.
Proof.
  intros [i [s ts] c'' Hs]. unfold sched_step in Hs. simpl in Hs.
  destruct (ts !! i) as [th|]; [|done].
  destruct th as [tp to tc [| |]]; unfold thread_step in Hs; simpl in Hs; simplify_eq/=; [done|].
  rewrite record_count_create. lia.
Qed.

Lemma gstep_registered cf cf' :
  available cf.1 PluginCollectionsCollectionName = true ->
  registered_when_finished cf -> gstep cf cf' ->
  registered_when_finished cf' /\ available cf'.1 PluginCollectionsCollectionName = true.
Proof.
  destruct cf as [s ts]. intros Ha Hreg Hstep. inversion Hstep as [i ? c'' Hs]; subst.
  unfold sched_step in Hs. simpl in *.
  destruct (ts !! i) as [th|] eqn:Hl; [|done].
  destruct (thread_step th s) as [[th' s']|] eqn:Ht; [|done]. simplify_eq/=.
  split; [|by rewrite (available_thread_step _ _ _ _ _ Ht)].
  intros th'' [->|Hin]%elem_of_list_insert_inv Hfin.
  - destruct th as [tp to tc [| |]]; unfold thread_step in Ht; simplify_eq/=.
    + destruct (pluginHasCollection tp to tc _) eqn:Hh; simplify_eq/=.
      destruct (record_count tp to tc _) eqn:Hz; [|lia].
      apply record_count_zero_iff in Hz; [congruence | done].
    + rewrite record_count_create, Ha, bool_decide_eq_true_2 by done. simpl. lia.
  - etrans; [by apply Hreg|]. apply (gstep_record_count_mono _ _ _ _ _ Hstep).
Qed.

End InterleavingLemmas.

Section InterleavingTheorems.
Context {St : Type} `{DocStoreLaws St}.
Implicit Types (s : St) (cf : config St).

(** C18: the guard is not atomic.  Two concurrent first requests for
    the same triple that both read the registry before either writes
    it record the triple twice. *)
Theorem concurrent_first_writes_duplicate p o c s :
  available s PluginCollectionsCollectionName = true ->
  record_count p o c s = 0 ->
  exists s', run_schedule [0; 1; 0; 1] (s, [start_thread p o c; start_thread p o c]) =
             (s', [mk_thread p o c Finished; mk_thread p o c Finished]) /\
             record_count p o c s' = 2.
Proof.
  intros Ha Hz. apply record_count_zero_iff in Hz as Hh; [|done].
  unfold run_schedule, sched_step. simpl. rewrite Hh. simpl.
  eexists. split; [reflexivity|].
  rewrite !record_count_create, available_createPluginCollectionRecord, Ha, Hz.
  rewrite bool_decide_eq_true_2 by done. reflexivity.
Qed.

(** C19: bound.  In every interleaving, the records of a triple never
    exceed those present at the start plus the requests for it that
    had not finished their guard. *)
Theorem concurrent_registry_bound p o c cf cf' :
  rtc gstep cf cf' ->
  record_count p o c cf'.1 <= record_count p o c cf.1 + pending (p, o, c) cf.2.
Proof.
  intros Hr. induction Hr as [|cf1 cf2 cf3 Hs Hr IH]; [lia|].
  pose proof (gstep_potential p o c _ _ Hs). lia.
Qed.

(** C20: convergence.  With the registry reachable, in every
    interleaving each request that has finished its guard leaves its
    triple registered. *)
Theorem concurrent_registered_when_finished cf cf' :
  available cf.1 PluginCollectionsCollectionName = true ->
  registered_when_finished cf -> rtc gstep cf cf' -> registered_when_finished cf'.
Proof.
  intros Ha Hreg Hr. revert Ha Hreg.
  induction Hr as [|cf1 cf2 cf3 Hs Hr IH]; intros Ha Hreg; [done|].
  destruct (gstep_registered _ _ Ha Hreg Hs). by apply IH.
Qed.

End InterleavingTheorems.

(** ** Concrete interleavings on the in-memory store *)

Import MemStore.

Definition race_start : config mem :=
  (empty_store, [start_thread "p1" "o1" "notes"; start_thread "p1" "o1" "notes"]).

Lemma concurrent_first_writes_duplicate_witness :
  exists s', run_schedule [0; 1; 0; 1] race_start =
             (s', [mk_thread "p1" "o1" "notes" Finished; mk_thread "p1" "o1" "notes" Finished]) /\
             record_count "p1" "o1" "notes" s' = 2.
Proof. apply concurrent_first_writes_duplicate; vm_compute; reflexivity. Defined.

Lemma concurrent_registry_bound_witness :
  record_count "p1" "o1" "notes" (run_schedule [0; 1; 0; 1] race_start).1 <= 2.
Proof.
  etrans; [apply (concurrent_registry_bound "p1" "o1" "notes" race_start), run_schedule_rtc|].
  vm_compute. lia.
Defined.

Lemma concurrent_registered_when_finished_witness :
  registered_when_finished (run_schedule [1; 0; 1; 0] race_start).
Proof.
  apply (concurrent_registered_when_finished race_start).
  - vm_compute. reflexivity.
  - intros th Hin Hfin. vm_compute in Hin. set_solver.
  - apply run_schedule_rtc.
Defined.
