(* ===== verification/Realtime.v ===== *)
(** * The Centrifugo gateway of [src/realtime/realtime.go]

    Centrifugo proxies a client's connect request to [Auth], which must
    answer with the user id the connection belongs to ([""] for an
    unauthenticated one); [Refresh] answers refresh requests and
    [PublishEvent] validates an event and hands it to the emitter.

    The handlers are functions of the request (its body and
    [Authorization] header), the store (read only, for the session
    lookup) and the response written so far; [Test] also reads the
    file system.  A Go panic ends the handler
    with what was written before it ([Panicked]).  The collaborators
    outside [src/] are section variables: the token validator
    [auth.GetSessionDataFromToken], the session collection of the
    configuration, the event struct [utils.Event] with its decoder
    [utils.ParseJsonFromRequest], the event validator [validate.Struct]
    and the emitter [utils.Emitter]. *)

From S2P Require Import Prelude Json Http Store.

(** ** Data *)

Record CentrifugoConnectRequest : Type := mk_connect_request {
  Client : string;
  Transport : string;
  Protocol : string;
  Encoding : string
}.

(** [CentrifugoConnectResponse{Result: CentrifugoConnectResult{User: u}}]
    as [encoding/json] writes it. *)
Definition CentrifugoConnectResponse (user : string) : value :=
  VObject [("result", VObject [("user", VString user)])].

(** [CentrifugoRefreshResponse{Result: CentrifugoRefreshResult{ExpireAt: e}}]. *)
Definition CentrifugoRefreshResponse (expire_at : string) : value :=
  VObject [("result", VObject [("expire_at", VString expire_at)])].

(** The parts of an [*http.Request] the handlers read. *)
Record http_request : Type := mk_http_request {
  req_body : option value;
  req_authorization : string
}.

Definition set_connect_field (c : CentrifugoConnectRequest) (k : string) (v : value)
    : option CentrifugoConnectRequest :=
  let '(mk_connect_request cl t p e) := c in
  if fold_eqb k "client" then (fun x => mk_connect_request x t p e) <$> decode_string cl v
  else if fold_eqb k "transport" then (fun x => mk_connect_request cl x p e) <$> decode_string t v
  else if fold_eqb k "protocol" then (fun x => mk_connect_request cl t x e) <$> decode_string p v
  else if fold_eqb k "encoding" then (fun x => mk_connect_request cl t p x) <$> decode_string e v
  else Some c.

(** [json.NewDecoder(r.Body).Decode(&creq)] on a parsed body. *)
Definition decode_connect_request (v : value) : option CentrifugoConnectRequest :=
  match v with
  | VNull => Some (mk_connect_request "" "" "" "")
  | VObject kvs =>
      foldl (fun acc kv => c ← acc; set_connect_field c kv.1 kv.2)
        (Some (mk_connect_request "" "" "" "")) kvs
  | _ => None
  end.

(** The outcome of a handler: it returned, or it panicked after writing
    what the response holds. *)
Inductive outcome : Type :=
| Completed (w : response)
| Panicked (w : response).

(** A Go call returning [(T, error)], or panicking. *)
Inductive go_result (A : Type) : Type :=
| GoOk (a : A)
| GoErr (e : string)
| GoPanic (msg : string).
Arguments GoOk {A} a.
Arguments GoErr {A} e.
Arguments GoPanic {A} msg.

(** [http.Error(w, msg, code)]. *)
Definition http_Error (msg : string) (code : Z) (w : response) : response :=
  Write (OText (msg +:+ String "010"%char EmptyString))
    (WriteHeader code (SetContentType "text/plain; charset=utf-8" w)).

(** [json.NewEncoder(w).Encode(v)] after setting the JSON content type
    and the status. *)
Definition write_json (code : Z) (v : value) (w : response) : response :=
  Write (OJson v) (WriteHeader code (SetContentType "application/json" w)).

Definition CentrifugoNotAuthenticatedResponse (w : response) : response :=
  write_json StatusCreated (CentrifugoConnectResponse "") w.

Definition ExtractHeaderToken (r : http_request) : string := req_authorization r.

Definition Refresh (w : response) : response :=
  write_json StatusCreated (CentrifugoRefreshResponse "") w.

(** [http.ServeFile(w, r, name)] on a file the server can read: the
    content type of an [.html] file and the file's contents, or
    [http.Error] with 404.  [files] is the file system, by path.
    Conditional and range requests are not modelled. *)
Definition ServeFile (files : string -> option string) (name : string) (w : response) : response :=
  match files name with
  | Some content => Write (OText content) (SetContentType "text/html; charset=utf-8" w)
  | None => http_Error "404 page not found" StatusNotFound w
  end.

Definition Test (files : string -> option string) (w : response) : response :=
  ServeFile files "./realtime/test_rtc.html" w.

Section Realtime.
Context {St : Type} `{DocStore St}.

(** [auth.GetSessionDataFromToken(r, key)]: (valid, error, session data). *)
Variable GetSessionDataFromToken : http_request -> bool * option string * document.
(** [configuration.SessionDbCollection]. *)
Variable SessionDbCollection : string.

(** [UserIDFromSession]: [mapstructure.Decode(sessionData, data)] is
    given the nil map [data] by value, so it fails and [data] stays nil;
    the lookup then runs with an empty filter.  The type assertion on
    ["user_id"] panics when the field is missing or not a string. *)
Definition UserIDFromSession (sessionData : document) (s : St) : go_result string :=
  let data : filter := [] in
  match GetMongoDbDoc SessionDbCollection data s with
  | inl e => GoErr (db_error_msg e)
  | inr session =>
      match field "user_id" session with
      | Some (VString u) => GoOk u
      | _ => GoPanic "interface conversion: interface {} is not string"
      end
  end.

Definition CentifugoConnectAuth (r : http_request) (s : St) : go_result string :=
  let '(status, err, sessionData) := GetSessionDataFromToken r in
  if status then
    match UserIDFromSession sessionData s with
    | GoOk userID => GoOk userID
    | GoErr _ => GoOk ""
    | GoPanic m => GoPanic m
    end
  else
    match err with
    | Some e => GoErr e
    | None => GoOk ""
    end.

(** [Auth]: neither not-authenticated answer returns, so the handler
    goes on to write the final answer after them. *)
Definition Auth (r : http_request) (s : St) (w : response) : outcome :=
  match req_body r ≫= decode_connect_request with
  | None => Completed (http_Error "invalid connect request" StatusBadRequest w)
  | Some creq =>
      let headerToken := ExtractHeaderToken r in
      let w1 := if String.eqb headerToken "" then CentrifugoNotAuthenticatedResponse w else w in
      match CentifugoConnectAuth r s with
      | GoPanic _ => Panicked w1
      | GoErr _ =>
          Completed (write_json StatusOK (CentrifugoConnectResponse "")
                       (CentrifugoNotAuthenticatedResponse w1))
      | GoOk userID => Completed (write_json StatusOK (CentrifugoConnectResponse userID) w1)
      end
  end.

(** [utils.Event], the struct an event is decoded into; its fields are
    declared outside [src/]. *)
Context {Event : Type}.
(** [utils.ParseJsonFromRequest(r, &event)]: the body decoded into an
    [utils.Event], or the decoding error ([None]: the body is not JSON). *)
Variable ParseJsonFromRequest : option value -> string + Event.
(** [validate.Struct(event)] and [utils.Emitter(event)]. *)
Variable validate_event : Event -> option string.
Variable Emitter : Event -> value.

(** [PublishEvent]: the response, and the events handed to the emitter. *)
Definition PublishEvent (r : http_request) (w : response) : response * list Event :=
  let w0 := SetContentType "application/json" w in
  match ParseJsonFromRequest (req_body r) with
  | inl err => (GetError err StatusUnprocessableEntity w0, [])
  | inr event =>
      match validate_event event with
      | Some err => (GetError err StatusBadRequest w0, [])
      | None => (GetSuccess "publish event status" (Emitter event) w0, [event])
      end
  end.

End Realtime.

(** ** What the handlers answer *)

Section RealtimeTheorems.
Context {St : Type} `{DocStore St}.
Variable GetSessionDataFromToken : http_request -> bool * option string * document.
Variable SessionDbCollection : string.
Context {Event : Type}.
Variable ParseJsonFromRequest : option value -> string + Event.
Variable validate_event : Event -> option string.
Variable Emitter : Event -> value.

Local Abbreviation UserIDFromSession := (UserIDFromSession SessionDbCollection).
Local Abbreviation CentifugoConnectAuth := (CentifugoConnectAuth GetSessionDataFromToken SessionDbCollection).
Local Abbreviation Auth := (Auth GetSessionDataFromToken SessionDbCollection).
Local Abbreviation PublishEvent := (PublishEvent ParseJsonFromRequest validate_event Emitter).

(** C28: a connect request without an [Authorization] header, whose
    empty token the validator rejects, gets three envelopes in one
    response: the not-authenticated one for the missing header (status
    201), the one for the rejected token, and the final one, whose status
    200 is dropped. *)
Theorem Auth_missing_token_answers_thrice r s creq e sd :
  req_body r ≫= decode_connect_request = Some creq ->
  ExtractHeaderToken r = "" ->
  GetSessionDataFromToken r = (false, Some e, sd) ->
  Auth r s empty_response =
  Completed (mk_response (Some StatusCreated) (Some "application/json")
               [OJson (CentrifugoConnectResponse ""); OJson (CentrifugoConnectResponse "");
                OJson (CentrifugoConnectResponse "")]).
Proof.
  intros Hd Ht Hg. unfold Realtime.Auth, Realtime.CentifugoConnectAuth. rewrite Hd, Ht, Hg.
  reflexivity.
Qed.

(** C29: a connect request whose token the validator rejects also gets
    two envelopes: the not-authenticated one (201) and a final one with
    the empty user. *)
Theorem Auth_rejected_token_answers_twice r s creq e sd :
  req_body r ≫= decode_connect_request = Some creq ->
  ExtractHeaderToken r <> "" ->
  GetSessionDataFromToken r = (false, Some e, sd) ->
  Auth r s empty_response =
  Completed (mk_response (Some StatusCreated) (Some "application/json")
               [OJson (CentrifugoConnectResponse ""); OJson (CentrifugoConnectResponse "")]).
Proof.
  intros Hd Ht Hg. unfold Realtime.Auth, Realtime.CentifugoConnectAuth. rewrite Hd, Hg.
  rewrite (proj2 (String.eqb_neq _ _) Ht). reflexivity.
Qed.

(** C22: the session lookup ignores the session the token carries: with
    the session collection reachable and its first document holding the
    string ["user_id"] [u], every session data resolves to [u]. *)
Theorem UserIDFromSession_first_session sd s d ds u :
  available s SessionDbCollection = true ->
  coll_docs s SessionDbCollection = d :: ds ->
  field "user_id" d = Some (VString u) ->
  UserIDFromSession sd s = GoOk u.
Proof.
  intros Ha Hd Hu. unfold Realtime.UserIDFromSession, GetMongoDbDoc. rewrite Ha, Hd. simpl.
  by rewrite Hu.
Qed.

Lemma CentifugoConnectAuth_valid r s err sd :
  GetSessionDataFromToken r = (true, err, sd) ->
  CentifugoConnectAuth r s =
  match UserIDFromSession sd s with
  | GoOk u => GoOk u | GoErr _ => GoOk "" | GoPanic m => GoPanic m
  end.
Proof. intros Hg. unfold Realtime.CentifugoConnectAuth. by rewrite Hg. Qed.

(** C21: every token the validator accepts is answered 200 with the
    user of the first session document, whoever the token belongs to. *)
Theorem Auth_valid_token_first_user r s creq err sd d ds u :
  req_body r ≫= decode_connect_request = Some creq ->
  ExtractHeaderToken r <> "" ->
  GetSessionDataFromToken r = (true, err, sd) ->
  available s SessionDbCollection = true ->
  coll_docs s SessionDbCollection = d :: ds ->
  field "user_id" d = Some (VString u) ->
  Auth r s empty_response =
  Completed (mk_response (Some StatusOK) (Some "application/json")
               [OJson (CentrifugoConnectResponse u)]).
Proof.
  intros Hd Ht Hg Ha Hs Hu. unfold Realtime.Auth. rewrite Hd.
  rewrite (CentifugoConnectAuth_valid _ _ _ _ Hg), (UserIDFromSession_first_session _ _ _ _ _ Ha Hs Hu).
  by rewrite (proj2 (String.eqb_neq _ _) Ht).
Qed.

(** C30: a failing session lookup is swallowed: with the session
    collection unreachable, a token the validator accepts is answered
    200 with the empty user instead of an error. *)
Theorem Auth_session_error_accepted r s creq err sd :
  req_body r ≫= decode_connect_request = Some creq ->
  ExtractHeaderToken r <> "" ->
  GetSessionDataFromToken r = (true, err, sd) ->
  available s SessionDbCollection = false ->
  Auth r s empty_response =
  Completed (mk_response (Some StatusOK) (Some "application/json")
               [OJson (CentrifugoConnectResponse "")]).
Proof.
  intros Hd Ht Hg Ha. unfold Realtime.Auth. rewrite Hd, (CentifugoConnectAuth_valid _ _ _ _ Hg).
  unfold Realtime.UserIDFromSession, GetMongoDbDoc. rewrite Ha.
  by rewrite (proj2 (String.eqb_neq _ _) Ht).
Qed.

(** C31: if the first session document has no string ["user_id"], a
    valid token makes the handler panic before it answers. *)
Theorem Auth_panics_without_user_id r s creq err sd d ds :
  req_body r ≫= decode_connect_request = Some creq ->
  ExtractHeaderToken r <> "" ->
  GetSessionDataFromToken r = (true, err, sd) ->
  available s SessionDbCollection = true ->
  coll_docs s SessionDbCollection = d :: ds ->
  (forall u, field "user_id" d <> Some (VString u)) ->
  Auth r s empty_response = Panicked empty_response.
Proof.
  intros Hd Ht Hg Ha Hs Hu. unfold Realtime.Auth. rewrite Hd, (CentifugoConnectAuth_valid _ _ _ _ Hg).
  unfold Realtime.UserIDFromSession, GetMongoDbDoc. rewrite Ha, Hs. simpl.
  rewrite (proj2 (String.eqb_neq _ _) Ht).
  destruct (field "user_id" d) as [[]|]; try done. by destruct (Hu s0).
Qed.

(** C32: a body that does not decode into an [utils.Event] is
    answered 422 with the decoding error and never reaches the
    validator or the emitter. *)
Theorem PublishEvent_undecodable_not_emitted r err :
  ParseJsonFromRequest (req_body r) = inl err ->
  PublishEvent r empty_response =
  (mk_response (Some StatusUnprocessableEntity) (Some "application/json")
     [OError err StatusUnprocessableEntity], []).
Proof. intros Hp. unfold Realtime.PublishEvent. by rewrite Hp. Qed.

(** C33: an event that decodes but fails validation is answered 400
    and never reaches the emitter. *)
Theorem PublishEvent_invalid_not_emitted r event err :
  ParseJsonFromRequest (req_body r) = inr event -> validate_event event = Some err ->
  PublishEvent r empty_response =
  (mk_response (Some StatusBadRequest) (Some "application/json") [OError err StatusBadRequest], []).
Proof. intros Hp Hv. unfold Realtime.PublishEvent. by rewrite Hp, Hv. Qed.

(** C34: a valid event is handed to the emitter exactly once and the
    emitter's answer is returned with status 200. *)
Theorem PublishEvent_valid_emitted r event :
  ParseJsonFromRequest (req_body r) = inr event -> validate_event event = None ->
  PublishEvent r empty_response =
  (mk_response (Some StatusOK) (Some "application/json")
     [OSuccess "publish event status" (Emitter event)], [event]).
Proof. intros Hp Hv. unfold Realtime.PublishEvent. by rewrite Hp, Hv. Qed.

End RealtimeTheorems.

(** ** Concrete runs *)

Import MemStore.

(** A token validator that accepts exactly "Bearer good". *)
Definition demo_tokens (r : http_request) : bool * option string * document :=
  if String.eqb (req_authorization r) "Bearer good" then (true, None, [("token", VString "good")])
  else (false, Some "invalid token", []).

Definition sessions : mem :=
  MemStore.of_list [("sessions", [[("user_id", VString "alice")]; [("user_id", VString "bob")]])].

Definition connect (auth : string) : http_request :=
  mk_http_request (Some (VObject [("client", VString "c1"); ("transport", VString "websocket")])) auth.

Definition demo_creq : CentrifugoConnectRequest := mk_connect_request "c1" "websocket" "" "".

Lemma Auth_missing_token_answers_thrice_witness :
  Auth demo_tokens "sessions" (connect "") sessions empty_response =
  Completed (mk_response (Some StatusCreated) (Some "application/json")
               [OJson (CentrifugoConnectResponse ""); OJson (CentrifugoConnectResponse "");
                OJson (CentrifugoConnectResponse "")]).
Proof.
  apply (Auth_missing_token_answers_thrice _ _ _ _ demo_creq "invalid token" []);
    vm_compute; reflexivity.
Defined.

Lemma Auth_rejected_token_answers_twice_witness :
  Auth demo_tokens "sessions" (connect "Bearer bad") sessions empty_response =
  Completed (mk_response (Some StatusCreated) (Some "application/json")
               [OJson (CentrifugoConnectResponse ""); OJson (CentrifugoConnectResponse "")]).
Proof.
  apply (Auth_rejected_token_answers_twice _ _ _ _ demo_creq "invalid token" []);
    [vm_compute; reflexivity | discriminate | vm_compute; reflexivity].
Defined.

Lemma UserIDFromSession_first_session_witness :
  UserIDFromSession "sessions" [("token", VString "bob's token")] sessions = GoOk "alice".
Proof.
  apply (UserIDFromSession_first_session _ _ _ [("user_id", VString "alice")] [[("user_id", VString "bob")]]);
    vm_compute; reflexivity.
Defined.

Lemma Auth_valid_token_first_user_witness :
  Auth demo_tokens "sessions" (connect "Bearer good") sessions empty_response =
  Completed (mk_response (Some StatusOK) (Some "application/json")
               [OJson (CentrifugoConnectResponse "alice")]).
Proof.
  apply (Auth_valid_token_first_user _ _ _ _ demo_creq None [("token", VString "good")]
           [("user_id", VString "alice")] [[("user_id", VString "bob")]]);
    [vm_compute; reflexivity | discriminate | vm_compute; reflexivity..].
Defined.

Definition sessions_down : mem := mk_mem (mem_colls sessions) {["sessions"]}.

Lemma Auth_session_error_accepted_witness :
  Auth demo_tokens "sessions" (connect "Bearer good") sessions_down empty_response =
  Completed (mk_response (Some StatusOK) (Some "application/json")
               [OJson (CentrifugoConnectResponse "")]).
Proof.
  apply (Auth_session_error_accepted _ _ _ _ demo_creq None [("token", VString "good")]);
    [vm_compute; reflexivity | discriminate | vm_compute; reflexivity..].
Defined.

Definition sessions_no_user : mem := MemStore.of_list [("sessions", [[("uid", VString "alice")]])].

Lemma Auth_panics_without_user_id_witness :
  Auth demo_tokens "sessions" (connect "Bearer good") sessions_no_user empty_response =
  Panicked empty_response.
Proof.
  apply (Auth_panics_without_user_id _ _ _ _ demo_creq None [("token", VString "good")]
           [("uid", VString "alice")] []);
    [vm_compute; reflexivity | discriminate | vm_compute; reflexivity
    | vm_compute; reflexivity | vm_compute; reflexivity | intros u; discriminate].
Defined.

(** An event type with a subject, a decoder that accepts a JSON object
    (its "subject" string, empty when absent) and a validator that
    requires a non-empty subject, as [validate:"required"] does. *)
Record demo_event : Type := mk_demo_event { subject : string }.

Definition demo_parse (body : option value) : string + demo_event :=
  match body with
  | Some (VObject kvs) =>
      match field "subject" kvs with
      | Some (VString s) => inr (mk_demo_event s)
      | None | Some VNull => inr (mk_demo_event "")
      | Some _ => inl "json: cannot unmarshal into Go struct field Event.subject of type string"
      end
  | Some _ => inl "json: cannot unmarshal string into Go value of type utils.Event"
  | None => inl "invalid character 'x' looking for beginning of value"
  end.

Definition demo_validate (e : demo_event) : option string :=
  if String.eqb (subject e) "" then Some "Key: 'Event.Subject' Error:Field validation for 'Subject' failed on the 'required' tag"
  else None.

Definition demo_emit (e : demo_event) : value := VObject [("status", VString "sent")].

Lemma PublishEvent_undecodable_not_emitted_witness :
  PublishEvent demo_parse demo_validate demo_emit (mk_http_request (Some (VString "x")) "") empty_response =
  (mk_response (Some StatusUnprocessableEntity) (Some "application/json")
     [OError "json: cannot unmarshal string into Go value of type utils.Event" StatusUnprocessableEntity],
   []).
Proof.
  apply (PublishEvent_undecodable_not_emitted demo_parse demo_validate demo_emit). reflexivity.
Defined.

Lemma PublishEvent_invalid_not_emitted_witness :
  PublishEvent demo_parse demo_validate demo_emit (mk_http_request (Some (VObject [])) "") empty_response =
  (mk_response (Some StatusBadRequest) (Some "application/json")
     [OError "Key: 'Event.Subject' Error:Field validation for 'Subject' failed on the 'required' tag"
        StatusBadRequest], []).
Proof.
  apply (PublishEvent_invalid_not_emitted demo_parse demo_validate demo_emit _ (mk_demo_event ""));
    reflexivity.
Defined.

Lemma PublishEvent_valid_emitted_witness :
  PublishEvent demo_parse demo_validate demo_emit
    (mk_http_request (Some (VObject [("subject", VString "join")])) "") empty_response =
  (mk_response (Some StatusOK) (Some "application/json")
     [OSuccess "publish event status" (VObject [("status", VString "sent")])],
   [mk_demo_event "join"]).
Proof.
  apply (PublishEvent_valid_emitted demo_parse demo_validate demo_emit _ (mk_demo_event "join"));
    reflexivity.
Defined.
